(** * bodhi: the update services (bodhi/services/updates.py)

    A shallow embedding of the three views of the update service,
    [set_request], [query_updates] and [new_update], and the properties
    of the request transition, creation and listing engines that follow
    from their code.

    The views are Python 2 functions over a cornice [request].  The
    methods of [bodhi.models.Update] they call ([check_requirements],
    [set_request], [edit], [new], [obsolete_older_updates]) live outside
    this file's sources: they are parameters of the development, free to
    answer, to mutate the objects they receive and to raise. *)

From Stdlib Require Import ZArith QArith Qround Lia.
From stdpp Require Import gmap strings list sorting.

Close Scope Q_scope.
Open Scope Z_scope.

(** ** Python values, exceptions and outcomes *)

Module Py.

(** The values a validated request dictionary holds. *)
#[warnings="-register-all"]
Inductive pyval : Type :=
| PyNone
| PyBool (b : bool)
| PyInt (n : Z)
| PyStr (s : string)
| PyList (l : list pyval).

(** Truth value testing, as [if v:] does it. *)
Definition truthy (v : pyval) : bool :=
  match v with
  | PyNone => false
  | PyBool b => b
  | PyInt n => negb (n =? 0)
  | PyStr s => negb (String.eqb s "")
  | PyList l => match l with [] => false | _ :: _ => true end
  end.

(** [d.get(k)]: the value under [k], [None] when the key is absent. *)
Definition dict_get (d : gmap string pyval) (k : string) : pyval :=
  default PyNone (d !! k).

(** An exception instance: the name of its class, what the two
    [isinstance] tests of the service's handlers answer on it, and its
    message.  Every exception of the model derives from [Exception];
    the interpreter's exit signals, which derive from [BaseException]
    only, are not values of this type. *)
Record exn : Type := Exn {
  exn_class : string;
  is_BodhiException : bool;          (* isinstance(e, BodhiException) *)
  is_LockedUpdateException : bool;   (* isinstance(e, LockedUpdateException) *)
  message : string
}.

(** The exceptions the interpreter and the database driver raise. *)
Definition KeyError (key : string) : exn := Exn "KeyError" false false key.
Definition TypeError (msg : string) : exn := Exn "TypeError" false false msg.
Definition ZeroDivisionError (msg : string) : exn :=
  Exn "ZeroDivisionError" false false msg.
Definition DataError (msg : string) : exn := Exn "DataError" false false msg.

(** ["%s" % e] for an exception built from one message. *)
Definition str_exn (e : exn) : string := message e.

(** A call either returns a value or raises. *)
Inductive outcome (A : Type) : Type :=
| Returned (a : A)
| Raised (e : exn).
Arguments Returned {A} a.
Arguments Raised {A} e.

(** [sep.join(v)]: [v] must be iterable and yield strings only; a
    string iterates over its characters. *)
Fixpoint join_strs (sep : string) (l : list string) : string :=
  match l with
  | [] => ""
  | [s] => s
  | s :: l' => s +:+ sep +:+ join_strs sep l'
  end.

Fixpoint chars (s : string) : list string :=
  match s with
  | EmptyString => []
  | String c s' => String c EmptyString :: chars s'
  end.

Fixpoint all_strs (l : list pyval) : option (list string) :=
  match l with
  | [] => Some []
  | PyStr s :: l' => cons s <$> all_strs l'
  | _ :: _ => None
  end.

Definition str_join (sep : string) (v : pyval) : outcome string :=
  match v with
  | PyList l =>
      match all_strs l with
      | Some ss => Returned (join_strs sep ss)
      | None => Raised (TypeError "sequence item: expected string")
      end
  | PyStr s => Returned (join_strs sep (chars s))
  | _ => Raised (TypeError "can only join an iterable")
  end.

End Py.
Export Py.

(** ** The entity model (bodhi.models) *)

Module Models.

(** Modelled from the spec: the enumerations of bodhi.models, whose
    declarations are not part of the service module.  The spec's data
    model lists the members of [UpdateStatus] and of [UpdateRequest]
    (its [none] is the NULL of the column, see [Update] below); the
    service itself names [UpdateRequest.stable], and the metrics view
    the four update types and [UpdateStatus.stable].  Of the severity
    and the suggestion no member is named anywhere: a value is known by
    its name, which is all the listing compares. *)
Inductive UpdateStatus : Type :=
| status_pending | status_testing | status_stable | status_obsolete
| status_unpushed | status_side_tag_active | status_side_tag_expired.

Inductive UpdateRequest : Type :=
| request_testing | request_stable | request_obsolete | request_revoke.

Inductive UpdateType : Type :=
| type_bugfix | type_enhancement | type_security | type_newpackage.

Inductive UpdateSeverity : Type :=
| Severity (name : string).

Inductive UpdateSuggestion : Type :=
| Suggestion (name : string).

#[global] Instance UpdateStatus_eq_dec : EqDecision UpdateStatus.
Proof. solve_decision. Defined.
#[global] Instance UpdateRequest_eq_dec : EqDecision UpdateRequest.
Proof. solve_decision. Defined.
#[global] Instance UpdateType_eq_dec : EqDecision UpdateType.
Proof. solve_decision. Defined.
#[global] Instance UpdateSeverity_eq_dec : EqDecision UpdateSeverity.
Proof. solve_decision. Defined.
#[global] Instance UpdateSuggestion_eq_dec : EqDecision UpdateSuggestion.
Proof. solve_decision. Defined.

Record Package : Type := { package_name : string }.
Record Build : Type := { nvr : string; package : Package }.
Record Bug : Type := { bug_id : Z }.
Record CVE : Type := { cve_id : string }.
Record Release : Type := { release_id : Z; release_name : string }.
Record User : Type := { user_id : Z; user_name : string }.

(** An update row with its relationships loaded.  Dates are seconds
    since the epoch; a nullable column is an [option], [None] being SQL
    NULL (the request of an update is NULL when nothing is requested). *)
Record Update : Type := {
  id : Z;
  title : string;
  status : UpdateStatus;
  request : option UpdateRequest;
  locked : bool;
  pushed : bool;
  critpath : bool;
  type : UpdateType;
  severity : UpdateSeverity;
  suggest : UpdateSuggestion;
  user : User;
  release : Release;
  date_submitted : Z;
  date_modified : option Z;
  date_approved : option Z;
  date_pushed : option Z;
  builds : list Build;
  bugs : list Bug;
  cves : list CVE
}.

End Models.
Export Models.

(** ** The request object and the view monad *)

Module Cornice.

(** One entry of [request.errors]: location, name, description. *)
Record error : Type := Error {
  location : string;
  name : string;
  description : string
}.

Section Request.
(** Everything behind the request that the model methods may read or
    change: the database session, the registry settings, the
    buildsystem. *)
Context {W : Type}.

(** The mutable parts of a cornice request. *)
Record Request : Type := {
  validated : gmap string pyval;
  errors : list error;
  request_user_name : string;   (* request.user.name *)
  world : W
}.

(** What the bodhi logger receives. *)
Inductive log_record : Type :=
| Log_validated (data : gmap string pyval)   (* debug 'validated = %s' *)
| Log_editing (edited : pyval)               (* info 'Editing update: %s' *)
| Log_creating (nvrs : string)               (* info 'Creating new update: %s' *)
| Log_update (up : Update)                   (* debug 'update = %r' *)
| Log_exception (e : exn).                   (* log.exception(e) *)

(** The calls a view makes into bodhi.models, in order. *)
Inductive call : Type :=
| Call_check_requirements (update : Update)
| Call_set_request (update : Update) (action : UpdateRequest)
    (username : string)
| Call_edit (data : gmap string pyval)
| Call_new (data : gmap string pyval)
| Call_obsolete_older_updates (up : Update).

Record state : Type := {
  req : Request;
  logged : list log_record;
  calls : list call
}.

(** A view runs on the state and returns or raises. *)
Definition View (A : Type) : Type := state -> outcome A * state.

Definition ret {A} (a : A) : View A := fun st => (Returned a, st).

Definition raise {A} (e : exn) : View A := fun st => (Raised e, st).

Definition bind {A B} (m : View A) (k : A -> View B) : View B :=
  fun st =>
    match m st with
    | (Returned a, st') => k a st'
    | (Raised e, st') => (Raised e, st')
    end.

(** [try: m  except Exception as e: h e] *)
Definition try_except {A} (m : View A) (h : exn -> View A) : View A :=
  fun st =>
    match m st with
    | (Returned a, st') => (Returned a, st')
    | (Raised e, st') => h e st'
    end.

Definition lift {A} (o : outcome A) : View A := fun st => (o, st).

(** [data = request.validated] *)
Definition get_validated : View (gmap string pyval) :=
  fun st => (Returned (validated (req st)), st).

Definition set_req (r : Request) (st : state) : state :=
  {| req := r; logged := logged st; calls := calls st |}.

Definition with_errors (es : list error) (r : Request) : Request :=
  {| validated := validated r; errors := es;
     request_user_name := request_user_name r; world := world r |}.

Definition with_validated (d : gmap string pyval) (r : Request) : Request :=
  {| validated := d; errors := errors r;
     request_user_name := request_user_name r; world := world r |}.

Definition with_world (w : W) (r : Request) : Request :=
  {| validated := validated r; errors := errors r;
     request_user_name := request_user_name r; world := w |}.

(** [request.errors.add(location, name, description)] *)
Definition errors_add (loc nm desc : string) : View unit :=
  fun st =>
    (Returned tt,
     set_req (with_errors (errors (req st) ++ [Error loc nm desc]) (req st)) st).

Definition log_ (r : log_record) : View unit :=
  fun st =>
    (Returned tt,
     {| req := req st; logged := logged st ++ [r]; calls := calls st |}).

Definition record_call (c : call) : View unit :=
  fun st =>
    (Returned tt,
     {| req := req st; logged := logged st; calls := calls st ++ [c] |}).

(** [data.pop(k)] on [request.validated]: removes the key and yields
    its value, [KeyError] when the key is absent. *)
Definition validated_pop (k : string) : View pyval :=
  fun st =>
    match validated (req st) !! k with
    | Some v =>
        (Returned v,
         set_req (with_validated (delete k (validated (req st))) (req st)) st)
    | None => (Raised (KeyError k), st)
    end.

(** [data[k]] on [request.validated] *)
Definition validated_getitem (k : string) : View pyval :=
  fun st =>
    match validated (req st) !! k with
    | Some v => (Returned v, st)
    | None => (Raised (KeyError k), st)
    end.

(** The cornice service wrapper answers with the view's value when the
    view returned and [request.errors] is empty, and with the error
    response otherwise. *)
Definition succeeded {A} (r : outcome A * state) : bool :=
  match r with
  | (Returned _, st) => match errors (req st) with [] => true | _ => false end
  | (Raised _, _) => false
  end.
End Request.
Arguments Request : clear implicits.
Arguments state : clear implicits.
Arguments View : clear implicits.

End Cornice.
Export Cornice.

Declare Scope view_scope.
Delimit Scope view_scope with view.
Notation "x <- m ;; k" := (bind m (fun x => k))
  (at level 100, m at next level, right associativity) : view_scope.
Notation "m ;; k" := (bind m (fun _ => k))
  (at level 100, right associativity) : view_scope.

(** ** The views of bodhi/services/updates.py *)

Module Services.
Section Views.
Open Scope view_scope.

Context {W : Type}.

(** The methods of bodhi.models.Update the views call.  A method
    works on the object it is called on and, through it, on the
    session; it answers or raises, and either way leaves the object
    and the world in the state given back.  The methods that are
    handed the [request] may also touch [request.errors] and
    [request.validated]. *)
Variable Update_check_requirements :
  Update -> W -> outcome (bool * string) * Update * W.
Variable Update_set_request :
  Update -> UpdateRequest -> string -> W -> outcome unit * Update * W.
Variable Update_edit : Request W -> outcome Update * Request W.
Variable Update_new : Request W -> outcome Update * Request W.
Variable Update_obsolete_older_updates :
  Update -> Request W -> outcome unit * Update * Request W.

(** [update.check_requirements(request.db, settings)] *)
Definition check_requirements (update : Update)
  : View W (outcome (bool * string) * Update) :=
  record_call (Call_check_requirements update) ;;
  fun st =>
    let '(o, update', w') :=
      Update_check_requirements update (world (req st)) in
    (Returned (o, update'), set_req (with_world w' (req st)) st).

(** [update.set_request(action, request.user.name)] *)
Definition update_set_request (update : Update) (action : UpdateRequest)
  : View W (outcome unit * Update) :=
  fun st =>
    let username := request_user_name (req st) in
    (record_call (Call_set_request update action username) ;;
     fun st =>
       let '(o, update', w') :=
         Update_set_request update action username (world (req st)) in
       (Returned (o, update'), set_req (with_world w' (req st)) st)) st.

(** [Update.edit(request, data)]; [data] is [request.validated]. *)
Definition edit : View W Update :=
  fun st =>
    (record_call (Call_edit (validated (req st))) ;;
     fun st =>
       let '(o, r') := Update_edit (req st) in (o, set_req r' st)) st.

(** [Update.new(request, data)]; [data] is [request.validated]. *)
Definition new : View W Update :=
  fun st =>
    (record_call (Call_new (validated (req st))) ;;
     fun st =>
       let '(o, r') := Update_new (req st) in (o, set_req r' st)) st.

(** [up.obsolete_older_updates(request)] *)
Definition obsolete_older_updates (up : Update) : View W Update :=
  record_call (Call_obsolete_older_updates up) ;;
  fun st =>
    let '(o, up', r') := Update_obsolete_older_updates up (req st) in
    (match o with Returned _ => Returned up' | Raised e => Raised e end,
     set_req r' st).

(** Lines 106-111 of [set_request]: apply the request, turn a
    [BodhiException] into an error entry, answer [dict(update=update)]. *)
Definition set_request_apply (update : Update) (action : UpdateRequest)
  : View W (option Update) :=
  r <- update_set_request update action ;;
  let '(o, update) := r in
  match o with
  | Returned _ => ret (Some update)
  | Raised e =>
      if is_BodhiException e then
        errors_add "body" "request" (message e) ;;
        ret (Some update)
      else raise e
  end.

(** [set_request(request)], with [update = request.validated['update']]
    and [action = request.validated['request']] as the validators of
    the service left them.  [None] is the bare [return], [Some update]
    the answer [dict(update=update)]. *)
Definition set_request (update : Update) (action : UpdateRequest)
  : View W (option Update) :=
  if locked update then
    errors_add "body" "request" "Can't change request on a locked update" ;;
    ret None
  else if decide (action = request_stable) then
    r <- check_requirements update ;;
    let '(o, update) := r in
    match o with
    | Raised e => raise e
    | Returned (result, reason) =>
        if negb result then
          errors_add "body" "request" ("Requirement not met " +:+ reason) ;;
          ret None
        else set_request_apply update action
    end
  else set_request_apply update action.

(** The body of the [try] of [new_update]. *)
Definition new_update_try : View W Update :=
  data <- get_validated ;;
  if truthy (dict_get data "edited") then
    edited <- validated_getitem "edited" ;;
    log_ (Log_editing edited) ;;
    edit
  else
    builds <- validated_getitem "builds" ;;
    nvrs <- lift (str_join " " builds) ;;
    log_ (Log_creating nvrs) ;;
    up <- new ;;
    log_ (Log_update up) ;;
    ret up.

(** [new_update(request)]; [None] is the bare [return] of the two
    handlers, [Some up] the answer [up]. *)
Definition new_update : View W (option Update) :=
  data <- get_validated ;;
  log_ (Log_validated data) ;;
  validated_pop "csrf_token" ;;
  r <- try_except
         (up <- new_update_try ;; ret (Some up))
         (fun e =>
            if is_LockedUpdateException e then
              errors_add "body" "builds" (str_exn e) ;;
              ret None
            else
              log_ (Log_exception e) ;;
              errors_add "body" "builds" "Unable to create update" ;;
              ret None) ;;
  match r with
  | None => ret None
  | Some up =>
      up <- obsolete_older_updates up ;;
      ret (Some up)
  end.

End Views.
End Services.
Export Services.

(** ** The query builder (sqlalchemy.orm.Query) and its evaluation *)

Module Sql.

(** The relationships [query_updates] joins along. *)
Inductive relationship : Type :=
| Update_bugs | Update_cves | Update_builds | Build_package.

#[global] Instance relationship_eq_dec : EqDecision relationship.
Proof. solve_decision. Defined.

(** The column expressions [query_updates] hands to [filter]. *)
#[warnings="-register-all"]
Inductive criterion : Type :=
| Update_date_approved_ge (d : Z)
| Update_date_modified_ge (d : Z)
| Update_date_pushed_ge (d : Z)
| Update_date_submitted_ge (d : Z)
| Update_critpath_eq (b : bool)
| Update_locked_eq (b : bool)
| Update_pushed_eq (b : bool)
| Update_title_like (pattern : string)
| Update_release_eq (r : Release)
| Update_request_eq (r : UpdateRequest)
| Update_severity_eq (s : UpdateSeverity)
| Update_status_eq (s : UpdateStatus)
| Update_suggest_eq (s : UpdateSuggestion)
| Update_type_eq (t : UpdateType)
| Update_user_eq (u : User)
| Bug_bug_id_eq (n : Z)
| CVE_cve_id_eq (s : string)
| Package_name_eq (s : string)
| Build_nvr_eq (s : string)
| or_ (clauses : list criterion).

Inductive ordering : Type :=
| Update_date_submitted_desc.

(** A query under construction. *)
Record Query : Type := {
  joins : list relationship;
  criteria : list criterion;
  order : list ordering;
  offset_ : option Z;
  limit_ : option Z
}.

(** [db.query(Update)] *)
Definition query_Update : Query :=
  {| joins := []; criteria := []; order := [];
     offset_ := None; limit_ := None |}.

(** [query.join(rel)].  A relationship already joined from the root is
    not joined a second time: the builds joined for the [packages]
    filter are the builds the [builds] filter then tests. *)
Definition join (rel : relationship) (q : Query) : Query :=
  {| joins := if decide (rel ∈ joins q) then joins q else joins q ++ [rel];
     criteria := criteria q; order := order q;
     offset_ := offset_ q; limit_ := limit_ q |}.

(** [query.filter(c)]: the criterion is ANDed to those present. *)
Definition filter (c : criterion) (q : Query) : Query :=
  {| joins := joins q; criteria := criteria q ++ [c]; order := order q;
     offset_ := offset_ q; limit_ := limit_ q |}.

Definition order_by (o : ordering) (q : Query) : Query :=
  {| joins := joins q; criteria := criteria q; order := order q ++ [o];
     offset_ := offset_ q; limit_ := limit_ q |}.

Definition offset (n : Z) (q : Query) : Query :=
  {| joins := joins q; criteria := criteria q; order := order q;
     offset_ := Some n; limit_ := limit_ q |}.

Definition limit (n : Z) (q : Query) : Query :=
  {| joins := joins q; criteria := criteria q; order := order q;
     offset_ := offset_ q; limit_ := Some n |}.

(** A row of the joined tables: the update and, for each table joined
    so far, the row of that table it was paired with. *)
Record row : Type := {
  row_update : Update;
  row_bug : option Bug;
  row_cve : option CVE;
  row_build : option Build;
  row_package : option Package
}.

Definition update_row (u : Update) : row :=
  {| row_update := u; row_bug := None; row_cve := None;
     row_build := None; row_package := None |}.

(** The inner join of one row along a relationship. *)
Definition join_row (rel : relationship) (r : row) : list row :=
  match rel with
  | Update_bugs =>
      (fun b => {| row_update := row_update r; row_bug := Some b;
                   row_cve := row_cve r; row_build := row_build r;
                   row_package := row_package r |}) <$> bugs (row_update r)
  | Update_cves =>
      (fun c => {| row_update := row_update r; row_bug := row_bug r;
                   row_cve := Some c; row_build := row_build r;
                   row_package := row_package r |}) <$> cves (row_update r)
  | Update_builds =>
      (fun b => {| row_update := row_update r; row_bug := row_bug r;
                   row_cve := row_cve r; row_build := Some b;
                   row_package := row_package r |}) <$> builds (row_update r)
  | Build_package =>
      match row_build r with
      | Some b => [ {| row_update := row_update r; row_bug := row_bug r;
                       row_cve := row_cve r; row_build := Some b;
                       row_package := Some (package b) |} ]
      | None => []
      end
  end.

(** The FROM clause: the updates table joined along [rels], in order. *)
Definition from_rows (db : list Update) (rels : list relationship) : list row :=
  foldl (fun rows rel => rows ≫= join_row rel) (update_row <$> db) rels.

(** [>=] and [==] against a nullable column are not true on NULL. *)
Definition ge_column (c : option Z) (d : Z) : bool :=
  match c with Some x => d <=? x | None => false end.

Definition desc_date_submitted : relation row :=
  fun r1 r2 => date_submitted (row_update r2) ≤ date_submitted (row_update r1).

#[global] Instance desc_date_submitted_dec : RelDecision desc_date_submitted.
Proof. intros r1 r2. unfold desc_date_submitted. apply _. Defined.

(** [util.unique_list] keyed by identity: the first row of each entity
    is kept; an update is identified by its primary key. *)
Fixpoint unique_list (seen : gset Z) (l : list Update) : list Update :=
  match l with
  | [] => []
  | u :: l' =>
      if decide (id u ∈ seen) then unique_list seen l'
      else u :: unique_list ({[id u]} ∪ seen) l'
  end.

Section Engine.
(** Two points the service leaves to the library and the database:
    what an [or_()] of no clauses selects (the legacy compiler renders
    nothing for it, so every row passes; a strict one renders false),
    and the LIKE operator, given the pattern and the subject. *)
Variable or_empty : bool.
Variable sql_like : string -> string -> bool.

(** The truth of a criterion on a joined row; a column of a table
    that was not joined is not there to satisfy it. *)
Fixpoint holds (r : row) (c : criterion) {struct c} : bool :=
  let u := row_update r in
  match c with
  | Update_date_approved_ge d => ge_column (date_approved u) d
  | Update_date_modified_ge d => ge_column (date_modified u) d
  | Update_date_pushed_ge d => ge_column (date_pushed u) d
  | Update_date_submitted_ge d => d <=? date_submitted u
  | Update_critpath_eq b => bool_decide (critpath u = b)
  | Update_locked_eq b => bool_decide (locked u = b)
  | Update_pushed_eq b => bool_decide (pushed u = b)
  | Update_title_like pattern => sql_like pattern (title u)
  | Update_release_eq rel => release_id (release u) =? release_id rel
  | Update_request_eq a => bool_decide (request u = Some a)
  | Update_severity_eq s => bool_decide (severity u = s)
  | Update_status_eq s => bool_decide (status u = s)
  | Update_suggest_eq s => bool_decide (suggest u = s)
  | Update_type_eq t => bool_decide (type u = t)
  | Update_user_eq usr => user_id (user u) =? user_id usr
  | Bug_bug_id_eq n =>
      match row_bug r with Some b => bug_id b =? n | None => false end
  | CVE_cve_id_eq s =>
      match row_cve r with Some c => String.eqb (cve_id c) s | None => false end
  | Package_name_eq s =>
      match row_package r with
      | Some p => String.eqb (package_name p) s
      | None => false
      end
  | Build_nvr_eq s =>
      match row_build r with Some b => String.eqb (nvr b) s | None => false end
  | or_ clauses =>
      match clauses with
      | [] => or_empty
      | _ :: _ => existsb (holds r) clauses
      end
  end.

(** The WHERE clause: every criterion holds. *)
Definition selects (q : Query) (r : row) : bool :=
  forallb (holds r) (criteria q).

(** ORDER BY.  Among rows of equal [date_submitted] the database is
    free to choose an order, and to choose anew for each query; the
    merge sort stands for one such choice, and no property below
    compares the row order of two queries. *)
Definition sort_rows (os : list ordering) (rows : list row) : list row :=
  match os with
  | [] => rows
  | Update_date_submitted_desc :: _ => merge_sort desc_date_submitted rows
  end.

(** OFFSET and LIMIT; the database refuses a negative one. *)
Definition apply_offset (o : option Z) (rows : list row) : outcome (list row) :=
  match o with
  | None => Returned rows
  | Some n =>
      if n <? 0 then Raised (DataError "OFFSET must not be negative")
      else Returned (drop (Z.to_nat n) rows)
  end.

Definition apply_limit (o : option Z) (rows : list row) : outcome (list row) :=
  match o with
  | None => Returned rows
  | Some n =>
      if n <? 0 then Raised (DataError "LIMIT must not be negative")
      else Returned (take (Z.to_nat n) rows)
  end.

(** The rows the SELECT of [q] yields. *)
Definition selected_rows (db : list Update) (q : Query) : list row :=
  sort_rows (order q) (List.filter (selects q) (from_rows db (joins q))).

Definition execute (db : list Update) (q : Query) : outcome (list row) :=
  match apply_offset (offset_ q) (selected_rows db q) with
  | Raised e => Raised e
  | Returned rows => apply_limit (limit_ q) rows
  end.

(** [query.count()]: the number of rows, not of distinct updates. *)
Definition count (db : list Update) (q : Query) : outcome Z :=
  match execute db q with
  | Raised e => Raised e
  | Returned rows => Returned (Z.of_nat (length rows))
  end.

(** [query.all()]: the entities of the rows, each update once. *)
Definition all (db : list Update) (q : Query) : outcome (list Update) :=
  match execute db q with
  | Raised e => Raised e
  | Returned rows => Returned (unique_list ∅ (row_update <$> rows))
  end.
End Engine.

(** A LIKE operator: [%] matches any run of characters, [_] any one
    character, every other character itself. *)
Fixpoint like_match (pattern subject : string) {struct pattern} : bool :=
  match pattern with
  | EmptyString => match subject with EmptyString => true | _ => false end
  | String p pattern' =>
      if String.eqb (String p EmptyString) "%" then
        (fix any (s : string) : bool :=
           like_match pattern' s ||
           match s with
           | EmptyString => false
           | String _ s' => any s'
           end) subject
      else
        match subject with
        | EmptyString => false
        | String c subject' =>
            (String.eqb (String p EmptyString) "_" || Ascii.eqb p c) && like_match pattern' subject'
        end
  end.

End Sql.
Export Sql.

(** ** The listing view, [query_updates] *)

(** [request.validated] after [ListUpdateSchema] and the validators of
    the listing: each filter key holds a typed value or [None]
    ([data.get] does not tell an absent key from a [None] value);
    releases and the user are the objects the validators looked up. *)
Module Data.
Record t : Type := {
  approved_since : option Z;
  bugs : option (list Z);
  critpath : option bool;
  cves : option (list string);
  like : option string;
  locked : option bool;
  modified_since : option Z;
  packages : option (list string);
  builds : option (list string);
  pushed : option bool;
  pushed_since : option Z;
  releases : option (list Release);
  release : option Release;
  request : option UpdateRequest;
  severity : option UpdateSeverity;
  status : option UpdateStatus;
  submitted_since : option Z;
  suggest : option UpdateSuggestion;
  type : option UpdateType;
  user : option User;
  page : Z;
  rows_per_page : Z;
  chrome : option bool;
  display_user : option bool
}.

(** No filter supplied. *)
Definition no_filter (page rows_per_page : Z) : t :=
  {| approved_since := None; bugs := None; critpath := None; cves := None;
     like := None; locked := None; modified_since := None; packages := None;
     builds := None; pushed := None; pushed_since := None; releases := None;
     release := None; request := None; severity := None; status := None;
     submitted_since := None; suggest := None; type := None; user := None;
     page := page; rows_per_page := rows_per_page;
     chrome := None; display_user := None |}.
End Data.

(** The dictionary the view answers with. *)
Module Listing.
Record t : Type := {
  updates : list Update;
  page : Z;
  pages : Z;
  rows_per_page : Z;
  total : Z;
  chrome : option bool;
  display_user : option bool
}.
End Listing.

Module UpdatesView.

(** [if v is not None: query = f(v, query)] *)
Definition if_not_None {A} (v : option A) (f : A -> Query -> Query)
  (query : Query) : Query :=
  match v with
  | Some a => f a query
  | None => query
  end.

(** Lines 133-223 of [query_updates]: the query after the filters. *)
Definition filtered_query (data : Data.t) : Query :=
  let query := query_Update in
  let query := if_not_None (Data.approved_since data) (fun approved_since query =>
    filter (Update_date_approved_ge approved_since) query) query in
  let query := if_not_None (Data.bugs data) (fun bugs query =>
    let query := join Update_bugs query in
    filter (or_ (Bug_bug_id_eq <$> bugs)) query) query in
  let query := if_not_None (Data.critpath data) (fun critpath query =>
    filter (Update_critpath_eq critpath) query) query in
  let query := if_not_None (Data.cves data) (fun cves query =>
    let query := join Update_cves query in
    filter (or_ (CVE_cve_id_eq <$> cves)) query) query in
  let query := if_not_None (Data.like data) (fun like query =>
    filter (or_ [Update_title_like ("%" +:+ like +:+ "%")]) query) query in
  let query := if_not_None (Data.locked data) (fun locked query =>
    filter (Update_locked_eq locked) query) query in
  let query := if_not_None (Data.modified_since data) (fun modified_since query =>
    filter (Update_date_modified_ge modified_since) query) query in
  let query := if_not_None (Data.packages data) (fun packages query =>
    let query := join Build_package (join Update_builds query) in
    filter (or_ (Package_name_eq <$> packages)) query) query in
  let query := if_not_None (Data.builds data) (fun builds query =>
    let query := join Update_builds query in
    filter (or_ (Build_nvr_eq <$> builds)) query) query in
  let query := if_not_None (Data.pushed data) (fun pushed query =>
    filter (Update_pushed_eq pushed) query) query in
  let query := if_not_None (Data.pushed_since data) (fun pushed_since query =>
    filter (Update_date_pushed_ge pushed_since) query) query in
  let query := if_not_None (Data.releases data) (fun releases query =>
    filter (or_ (Update_release_eq <$> releases)) query) query in
  let query := if_not_None (Data.release data) (fun release query =>
    filter (Update_release_eq release) query) query in
  let query := if_not_None (Data.request data) (fun req query =>
    filter (Update_request_eq req) query) query in
  let query := if_not_None (Data.severity data) (fun severity query =>
    filter (Update_severity_eq severity) query) query in
  let query := if_not_None (Data.status data) (fun status query =>
    filter (Update_status_eq status) query) query in
  let query := if_not_None (Data.submitted_since data) (fun submitted_since query =>
    filter (Update_date_submitted_ge submitted_since) query) query in
  let query := if_not_None (Data.suggest data) (fun suggest query =>
    filter (Update_suggest_eq suggest) query) query in
  let query := if_not_None (Data.type data) (fun type query =>
    filter (Update_type_eq type) query) query in
  let query := if_not_None (Data.user data) (fun user query =>
    filter (Update_user_eq user) query) query in
  query.

(** [int(math.ceil(total / float(rows_per_page)))].  The float quotient
    is taken as the exact rational one, which it rounds to the same
    ceiling for every count below 2^53; dividing by zero raises. *)
Definition ceil_div (total rows_per_page : Z) : outcome Z :=
  if rows_per_page =? 0 then
    Raised (ZeroDivisionError "float division by zero")
  else
    Returned (Qceiling (Qdiv (inject_Z total) (inject_Z rows_per_page))).

Section View.
Variable or_empty : bool.
Variable sql_like : string -> string -> bool.

(** [query_updates(request)] over the updates table [db]. *)
Definition query_updates (db : list Update) (data : Data.t)
  : outcome Listing.t :=
  let query := filtered_query data in
  let query := order_by Update_date_submitted_desc query in
  match count or_empty sql_like db query with
  | Raised e => Raised e
  | Returned total =>
      let page := Data.page data in
      let rows_per_page := Data.rows_per_page data in
      match ceil_div total rows_per_page with
      | Raised e => Raised e
      | Returned pages =>
          let query :=
            limit rows_per_page (offset (rows_per_page * (page - 1)) query) in
          match all or_empty sql_like db query with
          | Raised e => Raised e
          | Returned updates =>
              Returned
                {| Listing.updates := updates;
                   Listing.page := page;
                   Listing.pages := pages;
                   Listing.rows_per_page := rows_per_page;
                   Listing.total := total;
                   Listing.chrome := Data.chrome data;
                   Listing.display_user := Data.display_user data |}
          end
      end
  end.
End View.

End UpdatesView.
Export UpdatesView.

(** ** The error kinds of the service, as the views spell them *)

Module Errors.
(** [set_request] on a locked update. *)
Definition LockedUpdate : error :=
  Error "body" "request" "Can't change request on a locked update".

(** [set_request] to stable with the requirements unmet. *)
Definition RequirementNotMet (reason : string) : error :=
  Error "body" "request" ("Requirement not met " +:+ reason).

(** A [BodhiException] of the model's [set_request]. *)
Definition RequestRefused (e : exn) : error :=
  Error "body" "request" (message e).

(** [new_update], first handler: a [LockedUpdateException]. *)
Definition LockedUpdate_builds (e : exn) : error :=
  Error "body" "builds" (str_exn e).

(** [new_update], second handler: anything else. *)
Definition CreationFailed : error :=
  Error "body" "builds" "Unable to create update".
End Errors.
Export Errors.

(** State changes, named for the statements below. *)
Definition add_error {W} (e : error) (st : state W) : state W :=
  set_req (with_errors (errors (req st) ++ [e]) (req st)) st.

Definition add_log {W} (r : log_record) (st : state W) : state W :=
  {| req := req st; logged := logged st ++ [r]; calls := calls st |}.

Definition add_call {W} (c : call) (st : state W) : state W :=
  {| req := req st; logged := logged st; calls := calls st ++ [c] |}.

(** The state in which the [try] of [new_update] starts: the validated
    data logged, the csrf token popped. *)
Definition at_try {W} (st : state W) : state W :=
  set_req (with_validated (delete "csrf_token" (validated (req st))) (req st))
    (add_log (Log_validated (validated (req st))) st).

(** The updates [obsolete_older_updates] was called on, in order. *)
Definition obsoletion_calls (cs : list call) : list Update :=
  cs ≫= fun c =>
    match c with
    | Call_obsolete_older_updates up => [up]
    | _ => []
    end.

Definition is_Call_edit (c : call) : bool :=
  match c with Call_edit _ => true | _ => false end.

(** ** Fixtures *)

Module Fixtures.

Definition F30 : Release := {| release_id := 30; release_name := "F30" |}.
Definition F31 : Release := {| release_id := 31; release_name := "F31" |}.
Definition alice : User := {| user_id := 1; user_name := "alice" |}.

Definition kernel : Package := {| package_name := "kernel" |}.
Definition bash : Package := {| package_name := "bash" |}.

Definition example_update (i : Z) (st : UpdateStatus) (ty : UpdateType)
  (rel : Release) (submitted : Z) (bs : list Build) (bgs : list Bug) : Update :=
  {| id := i; title := "update"; status := st; request := Some request_testing;
     locked := false; pushed := false; critpath := false; type := ty;
     severity := Severity "unspecified"; suggest := Suggestion "unspecified";
     user := alice; release := rel; date_submitted := submitted;
     date_modified := None; date_approved := None; date_pushed := None;
     builds := bs; bugs := bgs; cves := [] |}.

Definition lock (u : Update) : Update :=
  {| id := id u; title := title u; status := status u; request := request u;
     locked := true; pushed := pushed u; critpath := critpath u;
     type := type u; severity := severity u; suggest := suggest u;
     user := user u; release := release u;
     date_submitted := date_submitted u; date_modified := date_modified u;
     date_approved := date_approved u; date_pushed := date_pushed u;
     builds := builds u; bugs := bugs u; cves := cves u |}.

Definition u1 : Update :=
  example_update 1 status_stable type_security F30 100
    [ {| nvr := "kernel-5.0-1"; package := kernel |} ]
    [ {| bug_id := 11 |}; {| bug_id := 12 |} ].
Definition u2 : Update :=
  example_update 2 status_stable type_bugfix F31 300
    [ {| nvr := "bash-5.0-1"; package := bash |} ] [ {| bug_id := 11 |} ].
Definition u3 : Update :=
  example_update 3 status_testing type_security F30 200
    [ {| nvr := "kernel-5.1-1"; package := kernel |};
      {| nvr := "bash-5.1-1"; package := bash |} ] [].
Definition u4 : Update :=
  example_update 4 status_pending type_enhancement F31 200 [] [].

Definition db4 : list Update := [u1; u2; u3; u4].

(** Twenty-five updates, submitted one after the other. *)
Definition db25 : list Update :=
  (fun i => example_update i status_pending type_bugfix F30 (1000 + i) [] [])
    <$> seqZ 1 25.

(** A request with nothing behind it. *)
Definition request0 (data : gmap string pyval) : Request unit :=
  {| validated := data; errors := []; request_user_name := "alice";
     world := tt |}.

Definition state0 (data : gmap string pyval) : state unit :=
  {| req := request0 data; logged := []; calls := [] |}.

(** Model methods for the examples. *)
Definition requirements_met (u : Update) (w : unit)
  : outcome (bool * string) * Update * unit :=
  (Returned (true, ""), u, w).

Definition requirements_unmet (u : Update) (w : unit)
  : outcome (bool * string) * Update * unit :=
  (Returned (false, "karma too low"), u, w).

Definition request_accepted (u : Update) (a : UpdateRequest) (n : string)
  (w : unit) : outcome unit * Update * unit :=
  (Returned tt,
   {| id := id u; title := title u; status := status u; request := Some a;
      locked := locked u; pushed := pushed u; critpath := critpath u;
      type := type u; severity := severity u; suggest := suggest u;
      user := user u; release := release u;
      date_submitted := date_submitted u; date_modified := date_modified u;
      date_approved := date_approved u; date_pushed := date_pushed u;
      builds := builds u; bugs := bugs u; cves := cves u |}, w).

Definition request_refused (u : Update) (a : UpdateRequest) (n : string)
  (w : unit) : outcome unit * Update * unit :=
  (Raised (Exn "BodhiException" true false "critical path update not yet approved"), u, w).

Definition edit_returns (r : Request unit) : outcome Update * Request unit :=
  (Returned u3, r).

Definition new_returns (r : Request unit) : outcome Update * Request unit :=
  (Returned u4, r).

Definition new_raises_locked (r : Request unit) : outcome Update * Request unit :=
  (Raised (Exn "LockedUpdateException" true true
            "Cannot edit locked update kernel-5.0-1"),
   r).

Definition new_raises_other (r : Request unit) : outcome Update * Request unit :=
  (Raised (Exn "IntegrityError" false false "duplicate key value"), r).

Definition obsoletion_done (up : Update) (r : Request unit)
  : outcome unit * Update * Request unit :=
  (Returned tt, up, r).

Definition obsoletion_raises (up : Update) (r : Request unit)
  : outcome unit * Update * Request unit :=
  (Raised (Exn "OperationalError" false false "connection lost"), up, r).

(** Submissions. *)
Definition submission_new : gmap string pyval :=
  <["csrf_token" := PyStr "t0k"]>
    (<["builds" := PyList [PyStr "kernel-5.2-1"]]> ∅).

Definition submission_edited_empty : gmap string pyval :=
  <["edited" := PyStr ""]> submission_new.

Definition submission_edit : gmap string pyval :=
  <["edited" := PyStr "kernel-5.1-1"]> submission_new.

End Fixtures.

(** ** The listing as the specification words it *)

Module ListingSpec.


(** The criterion a supplied filter contributes; none when absent. *)
Definition supplied {A} (v : option A) (c : A -> criterion) : list criterion :=
  match v with
  | Some a => [c a]
  | None => []
  end.

(** One criterion per supplied filter, in the order of the view. *)
Definition filter_criteria (data : Data.t) : list criterion :=
  concat [
    supplied (Data.approved_since data) Update_date_approved_ge;
    supplied (Data.bugs data) (fun bugs => or_ (Bug_bug_id_eq <$> bugs));
    supplied (Data.critpath data) Update_critpath_eq;
    supplied (Data.cves data) (fun cves => or_ (CVE_cve_id_eq <$> cves));
    supplied (Data.like data)
      (fun like => or_ [Update_title_like ("%" +:+ like +:+ "%")]);
    supplied (Data.locked data) Update_locked_eq;
    supplied (Data.modified_since data) Update_date_modified_ge;
    supplied (Data.packages data)
      (fun packages => or_ (Package_name_eq <$> packages));
    supplied (Data.builds data) (fun builds => or_ (Build_nvr_eq <$> builds));
    supplied (Data.pushed data) Update_pushed_eq;
    supplied (Data.pushed_since data) Update_date_pushed_ge;
    supplied (Data.releases data)
      (fun releases => or_ (Update_release_eq <$> releases));
    supplied (Data.release data) Update_release_eq;
    supplied (Data.request data) Update_request_eq;
    supplied (Data.severity data) Update_severity_eq;
    supplied (Data.status data) Update_status_eq;
    supplied (Data.submitted_since data) Update_date_submitted_ge;
    supplied (Data.suggest data) Update_suggest_eq;
    supplied (Data.type data) Update_type_eq;
    supplied (Data.user data) Update_user_eq
  ].

(** The tables joined to the updates: bugs and cves for their filters,
    builds once for [packages] and [builds] together, packages through
    the builds. *)
Definition joined (data : Data.t) : list relationship :=
  match Data.bugs data with Some _ => [Update_bugs] | None => [] end
  ++ match Data.cves data with Some _ => [Update_cves] | None => [] end
  ++ match Data.packages data, Data.builds data with
     | Some _, _ => [Update_builds; Build_package]
     | None, Some _ => [Update_builds]
     | None, None => []
     end.

(** Descending [date_submitted], on updates. *)
Definition submitted_desc : relation Update :=
  fun u1 u2 => date_submitted u2 ≤ date_submitted u1.

Section Spec.
Variable or_empty : bool.
Variable sql_like : string -> string -> bool.

(** The rows of the listing before OFFSET and LIMIT. *)
Definition listed_rows (db : list Update) (data : Data.t) : list row :=
  selected_rows or_empty sql_like db
    (order_by Update_date_submitted_desc (filtered_query data)).

(** The rows of the requested page: OFFSET rows_per_page * (page - 1),
    LIMIT rows_per_page. *)
Definition page_rows (db : list Update) (data : Data.t) : list row :=
  take (Z.to_nat (Data.rows_per_page data))
    (drop (Z.to_nat (Data.rows_per_page data * (Data.page data - 1)))
       (listed_rows db data)).

(** A multi-value filter: one of the listed values fits.  With no value
    listed the filter is whatever an [or_()] of nothing selects. *)
Definition any_of {A} (values : list A) (P : A -> Prop) : Prop :=
  match values with
  | [] => or_empty = true
  | _ :: _ => ∃ v, v ∈ values ∧ P v
  end.

(** [column >= d] on a nullable column. *)
Definition since (column : option Z) (d : Z) : Prop :=
  ∃ x, column = Some x ∧ d ≤ x.

(** What the eighteen filters and the legacy [release] ask of a joined
    row: every supplied filter holds, an absent one asks nothing, a
    list of values asks for one of them. *)
Definition matches (data : Data.t) (r : row) : Prop :=
  let u := row_update r in
  (∀ d, Data.approved_since data = Some d -> since (date_approved u) d)
  ∧ (∀ ids, Data.bugs data = Some ids ->
       any_of ids (fun n => ∃ b, row_bug r = Some b ∧ bug_id b = n))
  ∧ (∀ b, Data.critpath data = Some b -> critpath u = b)
  ∧ (∀ ids, Data.cves data = Some ids ->
       any_of ids (fun s => ∃ c, row_cve r = Some c ∧ cve_id c = s))
  ∧ (∀ s, Data.like data = Some s ->
       sql_like ("%" +:+ s +:+ "%") (title u) = true)
  ∧ (∀ b, Data.locked data = Some b -> locked u = b)
  ∧ (∀ d, Data.modified_since data = Some d -> since (date_modified u) d)
  ∧ (∀ names, Data.packages data = Some names ->
       any_of names (fun s => ∃ p, row_package r = Some p ∧ package_name p = s))
  ∧ (∀ nvrs, Data.builds data = Some nvrs ->
       any_of nvrs (fun s => ∃ b, row_build r = Some b ∧ nvr b = s))
  ∧ (∀ b, Data.pushed data = Some b -> pushed u = b)
  ∧ (∀ d, Data.pushed_since data = Some d -> since (date_pushed u) d)
  ∧ (∀ rels, Data.releases data = Some rels ->
       any_of rels (fun rel => release_id (release u) = release_id rel))
  ∧ (∀ rel, Data.release data = Some rel ->
       release_id (release u) = release_id rel)
  ∧ (∀ a, Data.request data = Some a -> request u = Some a)
  ∧ (∀ s, Data.severity data = Some s -> severity u = s)
  ∧ (∀ s, Data.status data = Some s -> status u = s)
  ∧ (∀ d, Data.submitted_since data = Some d -> d ≤ date_submitted u)
  ∧ (∀ s, Data.suggest data = Some s -> suggest u = s)
  ∧ (∀ t, Data.type data = Some t -> type u = t)
  ∧ (∀ usr, Data.user data = Some usr -> user_id (user u) = user_id usr).
End Spec.

End ListingSpec.
Export ListingSpec.

(** ** Listing fixtures *)

Module ListingFixtures.
Import Fixtures.

(** A query for one page with the few filters the examples use. *)
Definition listing (bugs : option (list Z)) (releases : option (list Release))
  (release : option Release) (status : option UpdateStatus)
  (type : option UpdateType) (page rows_per_page : Z) : Data.t :=
  {| Data.approved_since := None; Data.bugs := bugs; Data.critpath := None;
     Data.cves := None; Data.like := None; Data.locked := None;
     Data.modified_since := None; Data.packages := None; Data.builds := None;
     Data.pushed := None; Data.pushed_since := None;
     Data.releases := releases; Data.release := release;
     Data.request := None; Data.severity := None; Data.status := status;
     Data.submitted_since := None; Data.suggest := None; Data.type := type;
     Data.user := None; Data.page := page;
     Data.rows_per_page := rows_per_page;
     Data.chrome := None; Data.display_user := None |}.

Definition everything (page rows_per_page : Z) : Data.t :=
  listing None None None None None page rows_per_page.

Definition F30_among_F30_F31 : Data.t :=
  listing None (Some [F30; F31]) (Some F30) None None 1 20.

Definition F30_or_F31 : Data.t :=
  listing None (Some [F30; F31]) None None None 1 20.

Definition stable_only : Data.t :=
  listing None None None (Some status_stable) None 1 20.

Definition security_only : Data.t :=
  listing None None None None (Some type_security) 1 20.

Definition stable_security : Data.t :=
  listing None None None (Some status_stable) (Some type_security) 1 20.

Definition bugs_11_12 : Data.t :=
  listing (Some [11; 12]) None None None None 1 20.

(** The listing over [db], with the legacy [or_()] and [like_match]. *)
Definition run (db : list Update) (data : Data.t) : outcome Listing.t :=
  query_updates true like_match db data.

(** The answer of a run that is known to have answered. *)
Definition answer (o : outcome Listing.t) : Listing.t :=
  match o with
  | Returned l => l
  | Raised _ =>
      {| Listing.updates := []; Listing.page := 0; Listing.pages := 0;
         Listing.rows_per_page := 0; Listing.total := 0;
         Listing.chrome := None; Listing.display_user := None |}
  end.

Definition listed_ids (o : outcome Listing.t) : option (list Z) :=
  match o with
  | Returned l => Some (id <$> Listing.updates l)
  | Raised _ => None
  end.

Definition listed_total (o : outcome Listing.t) : option Z :=
  match o with
  | Returned l => Some (Listing.total l)
  | Raised _ => None
  end.

Definition listed_pages (o : outcome Listing.t) : option Z :=
  match o with
  | Returned l => Some (Listing.pages l)
  | Raised _ => None
  end.
End ListingFixtures.

(** ** The metrics view (bodhi/views/metrics.py) *)

Module Metrics.

(** The values handed to [json.dumps]; a dict is the list of its
    items. *)
#[warnings="-register-all"]
Inductive json : Type :=
| JInt (n : Z)
| JStr (s : string)
| JList (l : list json)
| JDict (items : list (string * json)).

(** A row of the releases table as the view reads it: the release and
    its [version_int] column. *)
Record release_row : Type := {
  row_release : Release;
  version_int : Z
}.

(** The [update_types] of the view, key and label. *)
Definition update_types : list (string * string) :=
  [ ("bugfix", "Bug fixes");
    ("enhancement", "Enhancements");
    ("security", "Security updates");
    ("newpackage", "New packages") ].

(** [sorted(l, cmp=lambda x, y: cmp(key(x), key(y)))]: ascending and
    stable, an element staying before the later ones of the same key. *)
Fixpoint insert_by {A} (key : A -> Z) (x : A) (l : list A) : list A :=
  match l with
  | [] => [x]
  | y :: l' =>
      if key x <=? key y then x :: y :: l' else y :: insert_by key x l'
  end.

Definition sorted_by {A} (key : A -> Z) (l : list A) : list A :=
  foldr (insert_by key) [] l.

(** [for x in l: ...] with a body that may raise: the results in order,
    or the first exception. *)
Fixpoint for_each {A B} (f : A -> outcome B) (l : list A) : outcome (list B) :=
  match l with
  | [] => Returned []
  | x :: l' =>
      match f x with
      | Raised e => Raised e
      | Returned y =>
          match for_each f l' with
          | Raised e => Raised e
          | Returned ys => Returned (y :: ys)
          end
      end
  end.

(** The answer of the view: the two dumped strings. *)
Record answer : Type := {
  data : string;
  ticks : string
}.

Section View.
(** What the view takes from outside its file: [json.dumps];
    [UpdateType.from_string], which answers the member of a name or
    raises; the order in which the [update_types] dict yields its
    items; and, for the queries, the two points of the query engine. *)
Variable json_dumps : json -> string.
Variable from_string : string -> outcome UpdateType.
Variable update_types_items : list (string * string).
Variable or_empty : bool.
Variable sql_like : string -> string -> bool.

(** [db.query(m.Release).filter(m.Release.name.like(u'F%')).all()] *)
Definition fedora_releases (releases : list release_row) : list release_row :=
  List.filter (fun r => sql_like "F%" (release_name (row_release r))) releases.

(** [db.query(m.Update).filter_by(release=release, type=type,
    status=m.UpdateStatus.stable).count()] *)
Definition stable_count (db : list Update) (release : Release)
  (type : UpdateType) : outcome Z :=
  count or_empty sql_like db
    (filter (Update_status_eq status_stable)
       (filter (Update_type_eq type)
          (filter (Update_release_eq release) query_Update))).

(** The first loop: the ticks, over the releases sorted by version. *)
Definition metrics_ticks (releases : list release_row) : list json :=
  imap (fun i release =>
          JList [JInt (Z.of_nat i); JStr (release_name (row_release release))])
    (sorted_by version_int releases).

(** The inner loop: the points of one update type, over the releases
    as the query returned them. *)
Definition metrics_points (db : list Update) (releases : list release_row)
  (type : UpdateType) : outcome (list json) :=
  for_each (fun ir : nat * release_row =>
              match stable_count db (row_release ir.2) type with
              | Raised e => Raised e
              | Returned num => Returned (JList [JInt (Z.of_nat ir.1); JInt num])
              end)
    (imap (fun i release => (i, release)) releases).

(** The second loop: one series for each item of [update_types]. *)
Definition metrics_data (db : list Update) (releases : list release_row)
  : outcome (list json) :=
  for_each (fun item : string * string =>
              match from_string item.1 with
              | Raised e => Raised e
              | Returned type =>
                  match metrics_points db releases type with
                  | Raised e => Raised e
                  | Returned d =>
                      Returned (JDict [("data", JList d); ("label", JStr item.2)])
                  end
              end)
    update_types_items.

(** [metrics(request)] over the updates and the releases tables. *)
Definition metrics (db : list Update) (releases_table : list release_row)
  : outcome answer :=
  let releases := fedora_releases releases_table in
  let ticks := metrics_ticks releases in
  match metrics_data db releases with
  | Raised e => Raised e
  | Returned data =>
      Returned {| data := json_dumps (JList data);
                  ticks := json_dumps (JList ticks) |}
  end.
End View.

(** The stable updates of a type in a release, counted directly. *)
Definition stable_updates (db : list Update) (release : Release)
  (type : UpdateType) : list Update :=
  List.filter
    (fun u => (release_id (Models.release u) =? release_id release)
              && bool_decide (Models.type u = type)
              && bool_decide (status u = status_stable))
    db.

(** One point of a series and one tick, as the loops build them. *)
Definition point (i : nat) (num : Z) : json :=
  JList [JInt (Z.of_nat i); JInt num].

Definition tick (i : nat) (r : release_row) : json :=
  JList [JInt (Z.of_nat i); JStr (release_name (row_release r))].

Definition ascending_version : relation release_row :=
  fun r1 r2 => version_int r1 ≤ version_int r2.

#[global] Instance ascending_version_dec : RelDecision ascending_version.
Proof. intros r1 r2. unfold ascending_version. apply _. Defined.

End Metrics.

(** ** More on the listing and the views, in the specification's terms *)

Module MoreSpec.


(** The model calls a run added to the trace. *)
Definition new_calls {W} (st st' : state W) : list call :=
  drop (length (calls st)) (calls st').

(** The submission a call to [Update.edit] or [Update.new] was handed. *)
Definition submission_of (c : call) : option (gmap string pyval) :=
  match c with
  | Call_edit d | Call_new d => Some d
  | _ => None
  end.

End MoreSpec.
Export MoreSpec.

(** ** Metrics fixtures *)

Module MetricsFixtures.
Import Metrics.

Definition F29 : Release := {| release_id := 29; release_name := "F29" |}.
Definition EPEL7 : Release := {| release_id := 7; release_name := "EPEL-7" |}.

(** The releases table, newest first. *)
Definition releases_table : list release_row :=
  [ {| row_release := Fixtures.F31; version_int := 31 |};
    {| row_release := EPEL7; version_int := 7 |};
    {| row_release := Fixtures.F30; version_int := 30 |} ].

(** The same table, oldest first. *)
Definition releases_ascending : list release_row :=
  [ {| row_release := EPEL7; version_int := 7 |};
    {| row_release := Fixtures.F30; version_int := 30 |};
    {| row_release := Fixtures.F31; version_int := 31 |} ].

Definition from_string (s : string) : outcome UpdateType :=
  if String.eqb s "bugfix" then Returned type_bugfix
  else if String.eqb s "enhancement" then Returned type_enhancement
  else if String.eqb s "security" then Returned type_security
  else if String.eqb s "newpackage" then Returned type_newpackage
  else Raised (Exn "ValueError" false false s).

(** A dumper that only tells the shape, enough to run the view. *)
Definition dumps (j : json) : string :=
  match j with
  | JInt _ => "int"
  | JStr s => s
  | JList l => "list"
  | JDict _ => "dict"
  end.

End MetricsFixtures.

(** ** More fixtures for the views *)

Module MoreFixtures.
Import Fixtures.

Definition requirements_raise (u : Update) (w : unit)
  : outcome (bool * string) * Update * unit :=
  (Raised (Exn "OperationalError" false false "connection lost"), u, w).

Definition request_crashes (u : Update) (a : UpdateRequest) (n : string)
  (w : unit) : outcome unit * Update * unit :=
  (Raised (Exn "OperationalError" false false "connection lost"), u, w).

(** Submissions: the token alone, and builds that are no sequence. *)
Definition submission_no_builds : gmap string pyval :=
  <["csrf_token" := PyStr "t0k"]> ∅.

Definition submission_bad_builds : gmap string pyval :=
  <["csrf_token" := PyStr "t0k"]> (<["builds" := PyInt 3]> ∅).

End MoreFixtures.

(** ** The joined rows of an update, in the specification's terms *)

Module JoinedRows.

(** Whether a filter is supplied. *)
Definition given {A} (v : option A) : bool :=
  match v with
  | Some _ => true
  | None => false
  end.

(** A row that pairs update [u] with one of its bugs, one of its cves
    and one of its builds, for each of these that is joined; the
    package, when joined, is the package of that same build. *)
Definition joined_with (bug cve build pkg : bool) (u : Update) (r : row)
  : Prop :=
  row_update r = u
  ∧ (if bug then ∃ b, b ∈ bugs u ∧ row_bug r = Some b else row_bug r = None)
  ∧ (if cve then ∃ c, c ∈ cves u ∧ row_cve r = Some c else row_cve r = None)
  ∧ (if build
     then ∃ b, b ∈ builds u ∧ row_build r = Some b
               ∧ row_package r = (if pkg then Some (package b) else None)
     else row_build r = None ∧ row_package r = None).

(** The rows of [u] under the joins of a query: bugs for [bugs], cves
    for [cves], one build for [packages] and [builds] together. *)
Definition joined_row (data : Data.t) (u : Update) (r : row) : Prop :=
  joined_with (given (Data.bugs data)) (given (Data.cves data))
    (given (Data.packages data) || given (Data.builds data))
    (given (Data.packages data)) u r.

(** A query with the [packages] and [builds] filters only. *)
Definition by_packages_builds (packages builds : option (list string))
  : Data.t :=
  {| Data.approved_since := None; Data.bugs := None; Data.critpath := None;
     Data.cves := None; Data.like := None; Data.locked := None;
     Data.modified_since := None; Data.packages := packages;
     Data.builds := builds; Data.pushed := None; Data.pushed_since := None;
     Data.releases := None; Data.release := None; Data.request := None;
     Data.severity := None; Data.status := None;
     Data.submitted_since := None; Data.suggest := None; Data.type := None;
     Data.user := None; Data.page := 1; Data.rows_per_page := 20;
     Data.chrome := None; Data.display_user := None |}.

(** The ids a query lists, with the legacy [or_()] and [like_match];
    none when the view raises. *)
Definition listed (db : list Update) (data : Data.t) : list Z :=
  default [] (ListingFixtures.listed_ids (ListingFixtures.run db data)).

End JoinedRows.
Export JoinedRows.

(** * Properties *)

(** ** The request transition view *)

Section SetRequestProperties.
Context {W : Type}.
Variable Update_check_requirements :
  Update -> W -> outcome (bool * string) * Update * W.
Variable Update_set_request :
  Update -> UpdateRequest -> string -> W -> outcome unit * Update * W.

Local Abbreviation set_request :=
  (set_request Update_check_requirements Update_set_request).

Lemma succeeded_add_error {A} (a : A) (e : error) (st : state W) :
  succeeded (Returned a, add_error e st) = false.
Proof. unfold succeeded, add_error; simpl. by destruct (errors (req st)). Qed.

(** C1.  On a locked update [set_request] does one thing only,
    whatever state is requested: it adds the LockedUpdate error and
    returns.  The answer is a failure, and neither the requirement
    checker nor any other model method was called: the calls made,
    the log and everything behind the request are as before. *)
Theorem set_request_locked (update : Update) (action : UpdateRequest)
  (st : state W) :
  locked update = true ->
  set_request update action st = (Returned None, add_error LockedUpdate st)
  ∧ succeeded (set_request update action st) = false
  ∧ calls (snd (set_request update action st)) = calls st
  ∧ world (req (snd (set_request update action st))) = world (req st).
Proof.
  intros Hlocked.
  assert (Hrun : set_request update action st
                 = (Returned None, add_error LockedUpdate st)).
  { unfold Services.set_request. rewrite Hlocked. reflexivity. }
  rewrite Hrun. split; [reflexivity|]. split; [apply succeeded_add_error|].
  split; reflexivity.
Qed.

(** What [set_request_apply] answers, by the outcome of the model's
    [set_request]. *)
Lemma set_request_apply_succeeded (update : Update) (action : UpdateRequest)
  (st : state W) :
  errors (req st) = [] ->
  succeeded (set_request_apply Update_set_request update action st) = true
  <-> ∃ u' w', Update_set_request update action
                 (request_user_name (req st)) (world (req st))
               = (Returned tt, u', w').
Proof.
  intros Herr.
  unfold set_request_apply, update_set_request, bind, record_call; simpl.
  destruct (Update_set_request update action (request_user_name (req st))
              (world (req st))) as [[o u'] w'] eqn:Hsr.
  destruct o as [[]|e]; simpl.
  - rewrite Herr. split; [eauto | reflexivity].
  - split; [| intros (? & ? & [=])].
    destruct (is_BodhiException e); simpl; [| discriminate].
    rewrite Herr. discriminate.
Qed.

(** C2, as the code has it.  For an unlocked update and the stable
    request: when the checker answers not ok, the view adds
    RequirementNotMet with the checker's reason appended unchanged and
    returns without applying the request; and the view succeeds
    exactly when the checker answers ok and the model's own
    [set_request] then returns without raising. *)
Theorem set_request_stable_gate (update : Update) (st : state W) :
  locked update = false ->
  errors (req st) = [] ->
  (∀ reason u' w',
      Update_check_requirements update (world (req st))
      = (Returned (false, reason), u', w') ->
      set_request update request_stable st
      = (Returned None,
         add_error (RequirementNotMet reason)
           (set_req (with_world w' (req st))
              (add_call (Call_check_requirements update) st))))
  ∧ (succeeded (set_request update request_stable st) = true
     <-> ∃ reason u' w' u'' w'',
           Update_check_requirements update (world (req st))
           = (Returned (true, reason), u', w')
           ∧ Update_set_request u' request_stable
               (request_user_name (req st)) w'
             = (Returned tt, u'', w'')).
Proof.
  intros Hunlocked Herr.
  unfold Services.set_request. rewrite Hunlocked.
  destruct (decide (request_stable = request_stable)) as [_|]; [|done].
  unfold check_requirements, bind, record_call; simpl.
  destruct (Update_check_requirements update (world (req st)))
    as [[o u'] w'] eqn:Hchk.
  split.
  - intros reason u0 w0 [= -> -> ->]. reflexivity.
  - destruct o as [[result reason]|e]; simpl.
    + destruct result; simpl.
      * rewrite set_request_apply_succeeded by (simpl; exact Herr). simpl.
        split.
        -- intros (u'' & w'' & Hsr). by exists reason, u', w', u'', w''.
        -- intros (? & ? & ? & u'' & w'' & [= <- <- <-] & Hsr). eauto.
      * split; [| intros (? & ? & ? & ? & ? & [=] & _)].
        unfold errors_add, bind, ret; simpl. rewrite Herr. discriminate.
    + split; [discriminate | intros (? & ? & ? & ? & ? & [=] & _)].
Qed.
End SetRequestProperties.

(** C2 as the specification words it, that an unlocked stable request succeeds
    if and only if the checker answers ok, does not hold: the checker
    is satisfied and the model still refuses the request. *)
Lemma set_request_stable_not_iff_requirements :
  ¬ (∀ (chk : Update -> unit -> outcome (bool * string) * Update * unit)
       (sr : Update -> UpdateRequest -> string -> unit
             -> outcome unit * Update * unit)
       (update : Update) (st : state unit),
        locked update = false ->
        errors (req st) = [] ->
        (succeeded (set_request chk sr update request_stable st) = true
         <-> ∃ reason u' w',
               chk update (world (req st)) = (Returned (true, reason), u', w'))).
Proof.
  intros Hclaim.
  destruct (Hclaim Fixtures.requirements_met Fixtures.request_refused
              Fixtures.u1 (Fixtures.state0 ∅) eq_refl eq_refl) as [_ Hif].
  assert (Hok : ∃ reason u' w',
             Fixtures.requirements_met Fixtures.u1
               (world (req (Fixtures.state0 ∅)))
             = (Returned (true, reason), u', w')).
  { by exists "", Fixtures.u1, tt. }
  specialize (Hif Hok). vm_compute in Hif. discriminate.
Qed.

(** A request the model refuses: the view answers the update and adds
    the exception's message to the errors. *)
Example set_request_refused_by_model :
  let r := set_request Fixtures.requirements_met Fixtures.request_refused
             Fixtures.u1 request_stable (Fixtures.state0 ∅) in
  fst r = Returned (Some Fixtures.u1)
  ∧ errors (req (snd r))
    = [RequestRefused
         (Exn "BodhiException" true false
            "critical path update not yet approved")]
  ∧ succeeded r = false.
Proof. vm_compute. repeat split. Qed.

Example set_request_requirements_unmet :
  let r := set_request Fixtures.requirements_unmet Fixtures.request_accepted
             Fixtures.u1 request_stable (Fixtures.state0 ∅) in
  fst r = Returned None
  ∧ errors (req (snd r)) = [RequirementNotMet "karma too low"]
  ∧ calls (snd r) = [Call_check_requirements Fixtures.u1].
Proof. vm_compute. repeat split. Qed.

Lemma set_request_locked_witness :
  locked (Fixtures.lock Fixtures.u1) = true
  ∧ set_request Fixtures.requirements_met Fixtures.request_accepted
      (Fixtures.lock Fixtures.u1) request_stable (Fixtures.state0 ∅)
    = (Returned None, add_error LockedUpdate (Fixtures.state0 ∅)).
Proof.
  split; [reflexivity|].
  apply (set_request_locked Fixtures.requirements_met
           Fixtures.request_accepted (Fixtures.lock Fixtures.u1)
           request_stable (Fixtures.state0 ∅)).
  reflexivity.
Defined.

Lemma set_request_stable_gate_witness :
  locked Fixtures.u1 = false
  ∧ errors (req (Fixtures.state0 ∅)) = []
  ∧ (succeeded (set_request Fixtures.requirements_met Fixtures.request_accepted
                  Fixtures.u1 request_stable (Fixtures.state0 ∅)) = true
     <-> ∃ reason u' w' u'' w'',
           Fixtures.requirements_met Fixtures.u1 tt
           = (Returned (true, reason), u', w')
           ∧ Fixtures.request_accepted u' request_stable "alice" w'
             = (Returned tt, u'', w''))
  ∧ set_request Fixtures.requirements_unmet Fixtures.request_accepted
      Fixtures.u1 request_stable (Fixtures.state0 ∅)
    = (Returned None,
       add_error (RequirementNotMet "karma too low")
         (set_req (with_world tt (req (Fixtures.state0 ∅)))
            (add_call (Call_check_requirements Fixtures.u1)
               (Fixtures.state0 ∅)))).
Proof.
  split; [reflexivity|]. split; [reflexivity|]. split.
  - apply (set_request_stable_gate Fixtures.requirements_met
             Fixtures.request_accepted Fixtures.u1 (Fixtures.state0 ∅));
      reflexivity.
  - exact (proj1 (set_request_stable_gate Fixtures.requirements_unmet
                    Fixtures.request_accepted Fixtures.u1 (Fixtures.state0 ∅)
                    eq_refl eq_refl)
             "karma too low" Fixtures.u1 tt eq_refl).
Defined.

(** ** The creation and edit view *)

Section NewUpdateProperties.
Context {W : Type}.
Variable Update_edit : Request W -> outcome Update * Request W.
Variable Update_new : Request W -> outcome Update * Request W.
Variable Update_obsolete_older_updates :
  Update -> Request W -> outcome unit * Update * Request W.

Local Abbreviation new_update_try := (new_update_try Update_edit Update_new).
Local Abbreviation new_update :=
  (new_update Update_edit Update_new Update_obsolete_older_updates).

(** [new_update] once the csrf token is popped: the [try], then either
    a handler or the obsoletion and the answer. *)
Lemma new_update_unfold (st : state W) (token : pyval) :
  validated (req st) !! "csrf_token" = Some token ->
  new_update st =
    match new_update_try (at_try st) with
    | (Returned up0, st2) =>
        match Update_obsolete_older_updates up0 (req st2) with
        | (Returned _, up, r') =>
            (Returned (Some up),
             set_req r' (add_call (Call_obsolete_older_updates up0) st2))
        | (Raised e, _, r') =>
            (Raised e,
             set_req r' (add_call (Call_obsolete_older_updates up0) st2))
        end
    | (Raised e, st2) =>
        if is_LockedUpdateException e then
          (Returned None, add_error (LockedUpdate_builds e) st2)
        else
          (Returned None, add_error CreationFailed (add_log (Log_exception e) st2))
    end.
Proof.
  intros Htoken.
  unfold Services.new_update, bind, log_, validated_pop, try_except; simpl.
  rewrite Htoken. fold (add_log (Log_validated (validated (req st))) st).
  change (set_req _ (add_log _ st)) with (at_try st).
  destruct (new_update_try (at_try st)) as [[up0|e] st2]; simpl.
  - unfold obsolete_older_updates, bind, record_call; simpl.
    fold (add_call (Call_obsolete_older_updates up0) st2).
    destruct (Update_obsolete_older_updates up0 (req st2)) as [[[[]|e] up] r'];
      reflexivity.
  - destruct (is_LockedUpdateException e); reflexivity.
Qed.

(** Without the token [data.pop] raises before anything else happens. *)
Lemma new_update_no_token (st : state W) :
  validated (req st) !! "csrf_token" = None ->
  new_update st
  = (Raised (KeyError "csrf_token"),
     add_log (Log_validated (validated (req st))) st).
Proof.
  intros Htoken.
  unfold Services.new_update, bind, log_, validated_pop; simpl.
  rewrite Htoken. reflexivity.
Qed.

(** The [try] calls [Update.edit] or [Update.new], at most once, and
    nothing else of the models. *)
Lemma new_update_try_calls (st : state W) :
  ∃ cs, calls (snd (new_update_try st)) = calls st ++ cs
        ∧ (cs = [] ∨ cs = [Call_edit (validated (req st))]
           ∨ cs = [Call_new (validated (req st))]).
Proof.
  unfold Services.new_update_try, bind; simpl.
  destruct (truthy (dict_get (validated (req st)) "edited")).
  - unfold validated_getitem.
    destruct (validated (req st) !! "edited"); simpl.
    + unfold edit, bind, record_call; simpl.
      destruct (Update_edit (req st)) as [o r']; simpl. eauto.
    + exists []. rewrite app_nil_r. eauto.
  - unfold validated_getitem.
    destruct (validated (req st) !! "builds") as [b|]; simpl.
    + unfold lift. destruct (str_join " " b) as [nvrs|e]; simpl.
      * unfold new, bind, record_call, log_; simpl.
        destruct (Update_new (req st)) as [[up|e] r']; simpl; eauto.
      * exists []. rewrite app_nil_r. eauto.
    + exists []. rewrite app_nil_r. eauto.
Qed.

Lemma new_update_try_no_obsoletion (st : state W) :
  obsoletion_calls (calls (snd (new_update_try st)))
  = obsoletion_calls (calls st).
Proof.
  destruct (new_update_try_calls st) as (cs & -> & Hcs).
  unfold obsoletion_calls. rewrite bind_app.
  destruct Hcs as [-> | [-> | ->]]; simpl; by rewrite app_nil_r.
Qed.

Lemma obsoletion_calls_at_try (st : state W) :
  obsoletion_calls (calls (at_try st)) = obsoletion_calls (calls st).
Proof. reflexivity. Qed.


(** C8.  If [new_update] answers an update, the create/edit step had
    returned an update [up0], [obsolete_older_updates] was then called
    on [up0], that was the last call before the answer and the only
    obsoletion call of the run, and the answer is [up0] as the
    obsoletion left it.  If the create/edit step raises, the run makes
    no obsoletion call. *)
Theorem new_update_obsoletes_once (st : state W) :
  (∀ up st',
      new_update st = (Returned (Some up), st') ->
      ∃ up0 st2 r',
        new_update_try (at_try st) = (Returned up0, st2)
        ∧ Update_obsolete_older_updates up0 (req st2) = (Returned tt, up, r')
        ∧ calls st' = calls st2 ++ [Call_obsolete_older_updates up0]
        ∧ obsoletion_calls (calls st') = obsoletion_calls (calls st) ++ [up0])
  ∧ (∀ token e st2,
        validated (req st) !! "csrf_token" = Some token ->
        new_update_try (at_try st) = (Raised e, st2) ->
        obsoletion_calls (calls (snd (new_update st)))
        = obsoletion_calls (calls st)).
Proof.
  split.
  - intros up st' Hrun.
    destruct (validated (req st) !! "csrf_token") as [token|] eqn:Htoken.
    2: { rewrite (new_update_no_token st Htoken) in Hrun. discriminate. }
    rewrite (new_update_unfold st token Htoken) in Hrun.
    pose proof (new_update_try_no_obsoletion (at_try st)) as Hnone.
    destruct (new_update_try (at_try st)) as [[up0|e] st2] eqn:Htry.
    + destruct (Update_obsolete_older_updates up0 (req st2))
        as [[[[]|e] up'] r'] eqn:Hobs; [|discriminate].
      injection Hrun as <- <-.
      exists up0, st2, r'. repeat split; [done|].
      simpl in *. unfold obsoletion_calls in *.
      rewrite bind_app, Hnone. reflexivity.
    + destruct (is_LockedUpdateException e); discriminate.
  - intros token e st2 Htoken Htry.
    pose proof (new_update_try_no_obsoletion (at_try st)) as Hnone.
    rewrite (new_update_unfold st token Htoken), Htry. rewrite Htry in Hnone.
    destruct (is_LockedUpdateException e); exact Hnone.
Qed.

(** C9, as the code has it.  After a create/edit step that returned
    [up0], the answer of [new_update] is decided by the obsoletion
    call, which no handler guards: if it returns, [new_update] answers
    the update, and whatever the obsoletion added to [request.errors]
    stays there; if it raises, [new_update] raises the same exception
    and answers no update. *)
Theorem new_update_obsoletion_outcome (st st2 : state W) (token : pyval)
  (up0 : Update) :
  validated (req st) !! "csrf_token" = Some token ->
  new_update_try (at_try st) = (Returned up0, st2) ->
  (∀ up r',
      Update_obsolete_older_updates up0 (req st2) = (Returned tt, up, r') ->
      new_update st
      = (Returned (Some up),
         set_req r' (add_call (Call_obsolete_older_updates up0) st2)))
  ∧ (∀ e up r',
      Update_obsolete_older_updates up0 (req st2) = (Raised e, up, r') ->
      new_update st
      = (Raised e,
         set_req r' (add_call (Call_obsolete_older_updates up0) st2))).
Proof.
  intros Htoken Htry.
  rewrite (new_update_unfold st token Htoken), Htry.
  split; intros; by match goal with H : _ = _ |- _ => rewrite H end.
Qed.

End NewUpdateProperties.

(** C9 as the specification words it, that a create/edit step that succeeded
    always ends in the update being answered, does not hold: the
    obsoletion raises and [new_update] raises with it. *)
Lemma new_update_obsoletion_failure_escalates :
  ¬ (∀ (edit new : Request unit -> outcome Update * Request unit)
       (obsolete : Update -> Request unit -> outcome unit * Update * Request unit)
       (st st2 : state unit) (up0 : Update),
        new_update_try edit new (at_try st) = (Returned up0, st2) ->
        ∃ up st', new_update edit new obsolete st = (Returned (Some up), st')).
Proof.
  intros Hclaim.
  destruct (Hclaim Fixtures.edit_returns Fixtures.new_returns
              Fixtures.obsoletion_raises
              (Fixtures.state0 Fixtures.submission_new)
              (snd (new_update_try Fixtures.edit_returns Fixtures.new_returns
                      (at_try (Fixtures.state0 Fixtures.submission_new))))
              Fixtures.u4) as (up & st' & Hrun).
  - vm_compute. reflexivity.
  - vm_compute in Hrun. discriminate.
Qed.


Lemma new_update_obsoletes_once_witness :
  let st := Fixtures.state0 Fixtures.submission_new in
  let r := new_update Fixtures.edit_returns Fixtures.new_returns
             Fixtures.obsoletion_done st in
  r = (Returned (Some Fixtures.u4), snd r)
  ∧ (∃ up0 st2 r',
      new_update_try Fixtures.edit_returns Fixtures.new_returns (at_try st)
      = (Returned up0, st2)
      ∧ Fixtures.obsoletion_done up0 (req st2) = (Returned tt, Fixtures.u4, r')
      ∧ calls (snd r) = calls st2 ++ [Call_obsolete_older_updates up0]
      ∧ obsoletion_calls (calls (snd r)) = obsoletion_calls (calls st) ++ [up0])
  ∧ (let e := Exn "IntegrityError" false false "duplicate key value" in
     let st2 := snd (new_update_try Fixtures.edit_returns
                       Fixtures.new_raises_other (at_try st)) in
     validated (req st) !! "csrf_token" = Some (PyStr "t0k")
     ∧ new_update_try Fixtures.edit_returns Fixtures.new_raises_other
         (at_try st) = (Raised e, st2)
     ∧ obsoletion_calls
         (calls (snd (new_update Fixtures.edit_returns
                        Fixtures.new_raises_other Fixtures.obsoletion_done st)))
       = obsoletion_calls (calls st)).
Proof.
  intros st r.
  assert (Hrun : r = (Returned (Some Fixtures.u4), snd r))
    by (vm_compute; reflexivity).
  split; [exact Hrun|]. split.
  - exact (proj1 (new_update_obsoletes_once Fixtures.edit_returns
                    Fixtures.new_returns Fixtures.obsoletion_done st)
             Fixtures.u4 (snd r) Hrun).
  - intros e st2.
    assert (Htoken : validated (req st) !! "csrf_token" = Some (PyStr "t0k"))
      by (vm_compute; reflexivity).
    assert (Htry : new_update_try Fixtures.edit_returns
                     Fixtures.new_raises_other (at_try st) = (Raised e, st2))
      by (vm_compute; reflexivity).
    split; [exact Htoken|]. split; [exact Htry|].
    exact (proj2 (new_update_obsoletes_once Fixtures.edit_returns
                    Fixtures.new_raises_other Fixtures.obsoletion_done st)
             (PyStr "t0k") e st2 Htoken Htry).
Defined.

Lemma new_update_obsoletion_outcome_witness :
  let st := Fixtures.state0 Fixtures.submission_new in
  let st2 := snd (new_update_try Fixtures.edit_returns Fixtures.new_returns
                    (at_try st)) in
  validated (req st) !! "csrf_token" = Some (PyStr "t0k")
  ∧ new_update_try Fixtures.edit_returns Fixtures.new_returns (at_try st)
    = (Returned Fixtures.u4, st2)
  ∧ Fixtures.obsoletion_raises Fixtures.u4 (req st2)
    = (Raised (Exn "OperationalError" false false "connection lost"),
       Fixtures.u4, req st2)
  ∧ new_update Fixtures.edit_returns Fixtures.new_returns
      Fixtures.obsoletion_raises st
    = (Raised (Exn "OperationalError" false false "connection lost"),
       set_req (req st2)
         (add_call (Call_obsolete_older_updates Fixtures.u4) st2))
  ∧ new_update Fixtures.edit_returns Fixtures.new_returns
      Fixtures.obsoletion_done st
    = (Returned (Some Fixtures.u4),
       set_req (req st2)
         (add_call (Call_obsolete_older_updates Fixtures.u4) st2)).
Proof.
  intros st st2.
  assert (Htoken : validated (req st) !! "csrf_token" = Some (PyStr "t0k"))
    by (vm_compute; reflexivity).
  assert (Htry : new_update_try Fixtures.edit_returns Fixtures.new_returns
                   (at_try st) = (Returned Fixtures.u4, st2))
    by (vm_compute; reflexivity).
  split; [exact Htoken|]. split; [exact Htry|]. split; [reflexivity|].
  split.
  - exact (proj2 (new_update_obsoletion_outcome Fixtures.edit_returns
                    Fixtures.new_returns Fixtures.obsoletion_raises
                    st st2 (PyStr "t0k") Fixtures.u4 Htoken Htry)
             (Exn "OperationalError" false false "connection lost")
             Fixtures.u4 (req st2) eq_refl).
  - exact (proj1 (new_update_obsoletion_outcome Fixtures.edit_returns
                    Fixtures.new_returns Fixtures.obsoletion_done
                    st st2 (PyStr "t0k") Fixtures.u4 Htoken Htry)
             Fixtures.u4 (req st2) eq_refl).
Defined.


(** The runs of the fixtures, evaluated. *)
Example new_update_edited_empty_creates :
  calls (snd (new_update Fixtures.edit_returns Fixtures.new_returns
                Fixtures.obsoletion_done
                (Fixtures.state0 Fixtures.submission_edited_empty)))
  = [Call_new (delete "csrf_token" Fixtures.submission_edited_empty);
     Call_obsolete_older_updates Fixtures.u4].
Proof. vm_compute. reflexivity. Qed.

Example new_update_edited_edits :
  calls (snd (new_update Fixtures.edit_returns Fixtures.new_returns
                Fixtures.obsoletion_done
                (Fixtures.state0 Fixtures.submission_edit)))
  = [Call_edit (delete "csrf_token" Fixtures.submission_edit);
     Call_obsolete_older_updates Fixtures.u3].
Proof. vm_compute. reflexivity. Qed.

Example new_update_locked_reported :
  let r := new_update Fixtures.edit_returns Fixtures.new_raises_locked
             Fixtures.obsoletion_done
             (Fixtures.state0 Fixtures.submission_new) in
  fst r = Returned None
  ∧ errors (req (snd r))
    = [Error "body" "builds" "Cannot edit locked update kernel-5.0-1"]
  ∧ obsoletion_calls (calls (snd r)) = [].
Proof. vm_compute. repeat split. Qed.

(** ** The listing view *)

(** *** The query the filters build *)

Lemma criteria_if_not_None {A} (v : option A) (f : A -> Query -> Query)
  (c : A -> criterion) (q : Query) :
  (∀ a q', criteria (f a q') = criteria q' ++ [c a]) ->
  criteria (if_not_None v f q) = criteria q ++ supplied v c.
Proof.
  intros Hf. destruct v as [a|]; simpl; [apply Hf | by rewrite app_nil_r].
Qed.

Lemma order_if_not_None {A} (v : option A) (f : A -> Query -> Query)
  (q : Query) :
  (∀ a q', order (f a q') = order q') ->
  order (if_not_None v f q) = order q.
Proof. intros Hf. destruct v as [a|]; simpl; [apply Hf | reflexivity]. Qed.

Lemma paging_if_not_None {A} (v : option A) (f : A -> Query -> Query)
  (q : Query) :
  (∀ a q', offset_ (f a q') = offset_ q' ∧ limit_ (f a q') = limit_ q') ->
  offset_ (if_not_None v f q) = offset_ q
  ∧ limit_ (if_not_None v f q) = limit_ q.
Proof. intros Hf. destruct v as [a|]; simpl; [apply Hf | done]. Qed.

(** Each supplied filter adds its one criterion, an absent one none. *)
Lemma criteria_filtered_query (data : Data.t) :
  criteria (filtered_query data) = filter_criteria data.
Proof.
  unfold filtered_query, filter_criteria. cbv zeta.
  repeat (erewrite criteria_if_not_None by (intros; simpl; reflexivity)).
  simpl. rewrite app_nil_r, <- !app_assoc. reflexivity.
Qed.

Lemma joins_if_not_None {A} (v : option A) (f : A -> Query -> Query)
  (q : Query) :
  (∀ a q', joins (f a q') = joins q') ->
  joins (if_not_None v f q) = joins q.
Proof. intros Hf. destruct v as [a|]; simpl; [apply Hf | reflexivity]. Qed.

Lemma joins_filter (c : criterion) (q : Query) : joins (filter c q) = joins q.
Proof. reflexivity. Qed.

Lemma joins_join (rel : relationship) (q : Query) :
  joins (join rel q)
  = if decide (rel ∈ joins q) then joins q else joins q ++ [rel].
Proof. reflexivity. Qed.

(** The joins of the filtered query. *)
Lemma joins_filtered_query (data : Data.t) :
  joins (filtered_query data) = joined data.
Proof.
  unfold filtered_query, joined. cbv zeta.
  destruct (Data.bugs data), (Data.cves data), (Data.packages data),
    (Data.builds data); cbn [if_not_None];
    repeat first
      [ rewrite joins_filter
      | rewrite joins_if_not_None by (intros; reflexivity)
      | rewrite joins_join ];
    reflexivity.
Qed.

(** The filters set no ordering, offset or limit. *)
Lemma order_filtered_query (data : Data.t) : order (filtered_query data) = [].
Proof.
  unfold filtered_query. cbv zeta.
  repeat (rewrite order_if_not_None by (intros; reflexivity)).
  reflexivity.
Qed.

Lemma paging_filtered_query (data : Data.t) :
  offset_ (filtered_query data) = None ∧ limit_ (filtered_query data) = None.
Proof.
  unfold filtered_query. cbv zeta.
  repeat match goal with
  | |- context [if_not_None ?v ?f ?q] =>
      let H := fresh in
      destruct (paging_if_not_None v f q) as [-> ->]; [by intros|]
  end.
  done.
Qed.

(** *** What the criteria ask of a row *)

Section FilterProperties.
Variable or_empty : bool.
Variable sql_like : string -> string -> bool.

Local Abbreviation holds := (holds or_empty sql_like).
Local Abbreviation selects := (selects or_empty sql_like).
Local Abbreviation any_of := (any_of or_empty).
Local Abbreviation matches := (matches or_empty sql_like).
Local Abbreviation listed_rows := (listed_rows or_empty sql_like).

Lemma holds_or_ (r : row) (cs : list criterion) :
  holds r (or_ cs)
  = match cs with [] => or_empty | _ :: _ => existsb (holds r) cs end.
Proof. by destruct cs. Qed.

(** An [or_] over the listed values of a filter holds when one of the
    values does. *)
Lemma holds_or_fmap {A} (r : row) (c : A -> criterion) (P : A -> Prop)
  (values : list A) :
  (∀ v, holds r (c v) = true <-> P v) ->
  holds r (or_ (c <$> values)) = true <-> any_of values P.
Proof.
  intros Hc. rewrite holds_or_. destruct values as [|v0 values]; [done|].
  change (c <$> v0 :: values) with (c v0 :: (c <$> values)).
  rewrite existsb_exists. unfold ListingSpec.any_of. split.
  - intros (x & Hx%list_elem_of_In & Hholds).
    change (c v0 :: (c <$> values)) with (c <$> v0 :: values) in Hx.
    apply list_elem_of_fmap in Hx as (v & -> & Hv).
    exists v. split; [done | by apply Hc].
  - intros (v & Hv & HP). exists (c v). split; [| by apply Hc].
    apply list_elem_of_In.
    change (c v0 :: (c <$> values)) with (c <$> v0 :: values).
    apply list_elem_of_fmap. eauto.
Qed.

Lemma ge_column_since (column : option Z) (d : Z) :
  ge_column column d = true <-> since column d.
Proof.
  unfold ge_column, since. destruct column as [x|].
  - rewrite Z.leb_le. split; [eauto | by intros (? & [= <-] & ?)].
  - split; [done | by intros (? & [=] & _)].
Qed.

Lemma forallb_supplied {A} (r : row) (v : option A) (c : A -> criterion)
  (P : A -> Prop) :
  (∀ a, holds r (c a) = true <-> P a) ->
  forallb (holds r) (supplied v c) = true <-> (∀ a, v = Some a -> P a).
Proof.
  intros Hc. destruct v as [a|]; simpl.
  - rewrite andb_true_r, Hc. split; [by intros ? ? [= <-] | eauto].
  - split; [by intros _ ? [=] | done].
Qed.

Lemma holds_like (r : row) (s : string) :
  holds r (or_ [Update_title_like ("%" +:+ s +:+ "%")]) = true
  <-> sql_like ("%" +:+ s +:+ "%") (title (row_update r)) = true.
Proof. simpl. by rewrite orb_false_r. Qed.

Lemma holds_row_bug (r : row) (n : Z) :
  holds r (Bug_bug_id_eq n) = true <-> ∃ b, row_bug r = Some b ∧ bug_id b = n.
Proof.
  simpl. destruct (row_bug r) as [b|].
  - rewrite Z.eqb_eq. split; [eauto | by intros (? & [= <-] & ?)].
  - split; [done | by intros (? & [=] & _)].
Qed.

Lemma holds_row_cve (r : row) (s : string) :
  holds r (CVE_cve_id_eq s) = true <-> ∃ c, row_cve r = Some c ∧ cve_id c = s.
Proof.
  simpl. destruct (row_cve r) as [c|].
  - rewrite String.eqb_eq. split; [eauto | by intros (? & [= <-] & ?)].
  - split; [done | by intros (? & [=] & _)].
Qed.

Lemma holds_row_package (r : row) (s : string) :
  holds r (Package_name_eq s) = true
  <-> ∃ p, row_package r = Some p ∧ package_name p = s.
Proof.
  simpl. destruct (row_package r) as [p|].
  - rewrite String.eqb_eq. split; [eauto | by intros (? & [= <-] & ?)].
  - split; [done | by intros (? & [=] & _)].
Qed.

Lemma holds_row_build (r : row) (s : string) :
  holds r (Build_nvr_eq s) = true <-> ∃ b, row_build r = Some b ∧ nvr b = s.
Proof.
  simpl. destruct (row_build r) as [b|].
  - rewrite String.eqb_eq. split; [eauto | by intros (? & [= <-] & ?)].
  - split; [done | by intros (? & [=] & _)].
Qed.

Lemma conj_iff (A B C D : Prop) : (A <-> B) -> (C <-> D) -> (A ∧ C <-> B ∧ D).
Proof. tauto. Qed.

(** The WHERE clause of the filtered query says what [matches] says. *)
Lemma selects_matches (data : Data.t) (r : row) :
  selects (filtered_query data) r = true <-> matches data r.
Proof.
  unfold Sql.selects. rewrite criteria_filtered_query.
  unfold filter_criteria, ListingSpec.matches. cbv zeta. simpl concat.
  rewrite app_nil_r, !forallb_app, !andb_true_iff.
  repeat apply conj_iff.
  all: try (apply forallb_supplied; intros; simpl;
            first [ apply ge_column_since
                  | apply bool_decide_eq_true
                  | apply Z.eqb_eq
                  | apply Z.leb_le ]).
  - apply forallb_supplied. intros ids. apply holds_or_fmap, holds_row_bug.
  - apply forallb_supplied. intros ids. apply holds_or_fmap, holds_row_cve.
  - apply forallb_supplied. intros s. apply holds_like.
  - apply forallb_supplied. intros ns. apply holds_or_fmap, holds_row_package.
  - apply forallb_supplied. intros ns. apply holds_or_fmap, holds_row_build.
  - apply forallb_supplied. intros rs. apply holds_or_fmap.
    intros rel. simpl. apply Z.eqb_eq.
Qed.
End FilterProperties.

(** *** Counting, paging and ordering *)

Lemma ceil_div_positive (total rows_per_page : Z) :
  0 < rows_per_page ->
  ∃ pages, ceil_div total rows_per_page = Returned pages
           ∧ pages = (total + rows_per_page - 1) `div` rows_per_page
           ∧ rows_per_page * (pages - 1) < total <= rows_per_page * pages.
Proof.
  intros Hpos. unfold ceil_div.
  destruct (Z.eqb_spec rows_per_page 0) as [->|_]; [lia|].
  eexists. split; [reflexivity|].
  destruct rows_per_page as [|p|p]; try lia.
  unfold Qceiling, Qfloor, Qdiv, Qmult, Qinv, Qopp, inject_Z; simpl.
  rewrite Z.mul_1_r, Pos.mul_1_l.
  pose proof (Z.div_mod (- total) (Z.pos p) ltac:(lia)) as Hdm.
  pose proof (Z.mod_pos_bound (- total) (Z.pos p) ltac:(lia)) as Hm.
  set (q := (- total) `div` Z.pos p) in *.
  set (m := (- total) `mod` Z.pos p) in *.
  split; [| lia].
  apply (Z.div_unique _ _ _ (Z.pos p - 1 - m)); lia.
Qed.

Lemma unique_list_elem_of (seen : gset Z) (l : list Update) (u : Update) :
  u ∈ unique_list seen l -> u ∈ l.
Proof.
  revert seen. induction l as [|x l IH]; intros seen; simpl; [done|].
  destruct (decide (id x ∈ seen)).
  - intros ?%IH. apply elem_of_cons. by right.
  - intros [->|?%IH]%elem_of_cons; apply elem_of_cons; [by left | by right].
Qed.

Lemma unique_list_Forall (P : Update -> Prop) (seen : gset Z) (l : list Update) :
  Forall P l -> Forall P (unique_list seen l).
Proof.
  intros Hl. apply Forall_forall. intros u Hu%unique_list_elem_of.
  by eapply Forall_forall in Hl.
Qed.

Lemma unique_list_StronglySorted (R : relation Update) (seen : gset Z)
  (l : list Update) :
  StronglySorted R l -> StronglySorted R (unique_list seen l).
Proof.
  intros Hl. revert seen.
  induction Hl as [|x l Hl IH Hx]; intros seen; simpl; [constructor|].
  destruct (decide (id x ∈ seen)); [apply IH|].
  constructor; [apply IH | by apply unique_list_Forall].
Qed.

Lemma StronglySorted_take_drop {A} (R : relation A) (n m : nat) (l : list A) :
  StronglySorted R l -> StronglySorted R (take n (drop m l)).
Proof.
  intros Hl.
  rewrite <- (take_drop m l) in Hl. apply StronglySorted_app_1_r in Hl.
  rewrite <- (take_drop n (drop m l)) in Hl.
  by apply StronglySorted_app_1_l in Hl.
Qed.

#[local] Instance desc_date_submitted_trans : Transitive desc_date_submitted.
Proof. intros r1 r2 r3. unfold desc_date_submitted. lia. Qed.

#[local] Instance desc_date_submitted_total : Total desc_date_submitted.
Proof. intros r1 r2. unfold desc_date_submitted. lia. Qed.

Section ListingProperties.
Variable or_empty : bool.
Variable sql_like : string -> string -> bool.

Local Abbreviation selects := (selects or_empty sql_like).
Local Abbreviation any_of := (any_of or_empty).
Local Abbreviation matches := (matches or_empty sql_like).
Local Abbreviation listed_rows := (listed_rows or_empty sql_like).
Local Abbreviation page_rows := (page_rows or_empty sql_like).
Local Abbreviation query_updates := (query_updates or_empty sql_like).

Lemma listed_rows_sorted (db : list Update) (data : Data.t) :
  StronglySorted desc_date_submitted (listed_rows db data).
Proof.
  unfold ListingSpec.listed_rows, selected_rows; simpl.
  rewrite order_filtered_query; simpl.
  apply (StronglySorted_merge_sort _).
Qed.

Lemma elem_of_listed_rows (db : list Update) (data : Data.t) (r : row) :
  r ∈ listed_rows db data
  <-> r ∈ from_rows db (joins (filtered_query data)) ∧ matches data r.
Proof.
  unfold ListingSpec.listed_rows, selected_rows; simpl.
  rewrite order_filtered_query; simpl.
  rewrite merge_sort_Permutation, list_elem_of_In, filter_In.
  rewrite <- list_elem_of_In.
  change (Sql.selects or_empty sql_like
            (order_by Update_date_submitted_desc (filtered_query data)) r)
    with (selects (filtered_query data) r).
  by rewrite selects_matches.
Qed.


(** The view, when it answers: OFFSET and LIMIT were not negative, the
    page size not zero, and the listing is made of the listed rows. *)
Lemma query_updates_returned (db : list Update) (data : Data.t)
  (l : Listing.t) :
  query_updates db data = Returned l ->
  Data.rows_per_page data ≠ 0
  ∧ 0 <= Data.rows_per_page data * (Data.page data - 1)
  ∧ 0 <= Data.rows_per_page data
  ∧ ceil_div (Z.of_nat (length (listed_rows db data)))
      (Data.rows_per_page data) = Returned (Listing.pages l)
  ∧ Listing.total l = Z.of_nat (length (listed_rows db data))
  ∧ Listing.updates l = unique_list ∅ (row_update <$> page_rows db data)
  ∧ Listing.page l = Data.page data
  ∧ Listing.rows_per_page l = Data.rows_per_page data.
Proof.
  unfold UpdatesView.query_updates, count, all, execute; simpl.
  destruct (paging_filtered_query data) as [-> ->]; simpl.
  fold (listed_rows db data).
  destruct (ceil_div _ _) as [pages|e] eqn:Hceil; [|done].
  change (selected_rows or_empty sql_like db _) with (listed_rows db data).
  destruct (Z.ltb_spec (Data.rows_per_page data * (Data.page data - 1)) 0);
    simpl; [done|].
  destruct (Z.ltb_spec (Data.rows_per_page data) 0); simpl; [done|].
  intros [= <-]; simpl. split_and?; try done.
  unfold ceil_div in Hceil.
  by destruct (Z.eqb_spec (Data.rows_per_page data) 0).
Qed.

End ListingProperties.

(** *** The properties of the listing *)

Section ListingTheorems.
Variable or_empty : bool.
Variable sql_like : string -> string -> bool.

Local Abbreviation selects := (selects or_empty sql_like).
Local Abbreviation any_of := (any_of or_empty).
Local Abbreviation matches := (matches or_empty sql_like).
Local Abbreviation listed_rows := (listed_rows or_empty sql_like).
Local Abbreviation page_rows := (page_rows or_empty sql_like).
Local Abbreviation query_updates := (query_updates or_empty sql_like).


(** Every item of an answer is the update of a listed row. *)
Lemma listed_update_row (db : list Update) (data : Data.t) (l : Listing.t)
  (u : Update) :
  query_updates db data = Returned l ->
  u ∈ Listing.updates l ->
  ∃ r, r ∈ listed_rows db data ∧ row_update r = u.
Proof.
  intros Hl Hu.
  destruct (query_updates_returned or_empty sql_like db data l Hl)
    as (_ & _ & _ & _ & _ & Hupdates & _).
  rewrite Hupdates in Hu. apply unique_list_elem_of in Hu.
  apply list_elem_of_fmap in Hu as (r & -> & Hr).
  exists r. split; [|done].
  unfold ListingSpec.page_rows in Hr.
  by apply subseteq_take, subseteq_drop in Hr.
Qed.

(** C4.  With both [releases] and [release] supplied, every update
    listed passes both filters: its release is the singular one, and it
    passes the plural filter as well, that is, when releases are listed
    its release is one of them. *)
Theorem query_updates_release_and_releases (db : list Update) (data : Data.t)
  (rels : list Release) (rel : Release) (l : Listing.t) (u : Update) :
  Data.releases data = Some rels ->
  Data.release data = Some rel ->
  query_updates db data = Returned l ->
  u ∈ Listing.updates l ->
  release_id (release u) = release_id rel
  ∧ any_of rels (fun rel' => release_id (release u) = release_id rel')
  ∧ (rels ≠ [] ->
     ∃ rel', rel' ∈ rels ∧ release_id rel' = release_id rel
             ∧ release_id (release u) = release_id rel').
Proof.
  intros Hrels Hrel Hl Hu.
  destruct (listed_update_row db data l u Hl Hu) as (r & Hr & <-).
  apply elem_of_listed_rows in Hr as [_ Hmatch].
  unfold ListingSpec.matches in Hmatch.
  destruct Hmatch
    as (_ & _ & _ & _ & _ & _ & _ & _ & _ & _ & _ & Hplural & Hsingular & _).
  specialize (Hplural rels Hrels). specialize (Hsingular rel Hrel).
  split; [exact Hsingular|]. split; [exact Hplural|].
  intros Hne. destruct rels as [|rel0 rels]; [done|].
  destruct Hplural as (rel' & Hin & Heq). exists rel'.
  split; [exact Hin|]. split; [congruence | exact Heq].
Qed.

(** C6.  Whatever the filters, the query is ordered by [date_submitted]
    descending and by nothing else, and the items of an answer come in
    that order. *)
Theorem query_updates_ordered (db : list Update) (data : Data.t)
  (l : Listing.t) :
  query_updates db data = Returned l ->
  order (order_by Update_date_submitted_desc (filtered_query data))
  = [Update_date_submitted_desc]
  ∧ StronglySorted submitted_desc (Listing.updates l).
Proof.
  intros Hl. split.
  - simpl. by rewrite order_filtered_query.
  - destruct (query_updates_returned or_empty sql_like db data l Hl)
      as (_ & _ & _ & _ & _ & -> & _).
    apply unique_list_StronglySorted.
    apply (StronglySorted_fmap _ desc_date_submitted); [done|].
    apply StronglySorted_take_drop, listed_rows_sorted.
Qed.
End ListingTheorems.

(** Every update of the rows is kept, under its identity. *)
Lemma unique_list_complete (seen : gset Z) (l : list Update) (u : Update) :
  u ∈ l -> id u ∉ seen -> ∃ u', u' ∈ unique_list seen l ∧ id u' = id u.
Proof.
  revert seen. induction l as [|x l IH]; intros seen Hu Hseen; simpl.
  - by apply elem_of_nil in Hu.
  - apply elem_of_cons in Hu as [->|Hu].
    + destruct (decide (id x ∈ seen)); [done|].
      exists x. split; [apply elem_of_cons; by left | done].
    + destruct (decide (id x ∈ seen)); [by apply IH|].
      destruct (decide (id u = id x)) as [Heq|Hne].
      * exists x. split; [apply elem_of_cons; by left | done].
      * destruct (IH ({[id x]} ∪ seen) Hu) as (u' & Hu' & Hid).
        { intros [Hx%elem_of_singleton|Hx]%elem_of_union; done. }
        exists u'. split; [apply elem_of_cons; by right | done].
Qed.

(** *** The rows the joins produce *)

Section JoinedRowsProperties.
Variable db : list Update.

Local Abbreviation rows_of :=
  (fun (rows : list row) bug cve build pkg =>
     ∀ r, r ∈ rows <-> ∃ u, u ∈ db ∧ joined_with bug cve build pkg u r).

Lemma update_rows_joined : rows_of (update_row <$> db) false false false false.
Proof.
  intros r. rewrite list_elem_of_fmap. unfold joined_with. split.
  - intros (u & -> & Hu). exists u. by repeat split.
  - intros (u & Hu & Hr & Hbug & Hcve & Hbuild & Hpkg). exists u.
    split; [|done]. destruct r; simpl in *. by subst.
Qed.

Lemma join_bugs_joined (rows : list row) (cve build pkg : bool) :
  rows_of rows false cve build pkg ->
  rows_of (rows ≫= join_row Update_bugs) true cve build pkg.
Proof.
  intros Hrows r. rewrite list_elem_of_bind. split.
  - intros (r0 & Hr & (u & Hu & Hup & Hbug & Hcve & Hbuild)%Hrows).
    apply list_elem_of_fmap in Hr as (b & -> & Hb). exists u.
    split; [done|]. unfold joined_with; simpl. rewrite Hup in Hb.
    split; [done|]. split; [by exists b|]. by split.
  - intros (u & Hu & Hup & (b & Hb & Hbug) & Hcve & Hbuild).
    exists {| row_update := row_update r; row_bug := None;
              row_cve := row_cve r; row_build := row_build r;
              row_package := row_package r |}.
    split.
    + apply list_elem_of_fmap. exists b. simpl. rewrite Hup.
      split; [|done]. destruct r; simpl in *. by subst.
    + apply Hrows. exists u. split; [done|]. by repeat split.
Qed.

Lemma join_cves_joined (rows : list row) (bug build pkg : bool) :
  rows_of rows bug false build pkg ->
  rows_of (rows ≫= join_row Update_cves) bug true build pkg.
Proof.
  intros Hrows r. rewrite list_elem_of_bind. split.
  - intros (r0 & Hr & (u & Hu & Hup & Hbug & Hcve & Hbuild)%Hrows).
    apply list_elem_of_fmap in Hr as (c & -> & Hc). exists u.
    split; [done|]. unfold joined_with; simpl. rewrite Hup in Hc.
    split; [done|]. split; [done|]. split; [by exists c | done].
  - intros (u & Hu & Hup & Hbug & (c & Hc & Hcve) & Hbuild).
    exists {| row_update := row_update r; row_bug := row_bug r;
              row_cve := None; row_build := row_build r;
              row_package := row_package r |}.
    split.
    + apply list_elem_of_fmap. exists c. simpl. rewrite Hup.
      split; [|done]. destruct r; simpl in *. by subst.
    + apply Hrows. exists u. split; [done|]. by repeat split.
Qed.

Lemma join_builds_joined (rows : list row) (bug cve : bool) :
  rows_of rows bug cve false false ->
  rows_of (rows ≫= join_row Update_builds) bug cve true false.
Proof.
  intros Hrows r. rewrite list_elem_of_bind. split.
  - intros (r0 & Hr & (u & Hu & Hup & Hbug & Hcve & Hbuild & Hpkg)%Hrows).
    apply list_elem_of_fmap in Hr as (b & -> & Hb). exists u.
    split; [done|]. unfold joined_with; simpl. rewrite Hup in Hb.
    split; [done|]. split; [done|]. split; [done|]. by exists b.
  - intros (u & Hu & Hup & Hbug & Hcve & (b & Hb & Hbuild & Hpkg)).
    exists {| row_update := row_update r; row_bug := row_bug r;
              row_cve := row_cve r; row_build := None;
              row_package := row_package r |}.
    split.
    + apply list_elem_of_fmap. exists b. simpl. rewrite Hup.
      split; [|done]. destruct r; simpl in *. by subst.
    + apply Hrows. exists u. split; [done|]. by repeat split.
Qed.

Lemma join_package_joined (rows : list row) (bug cve : bool) :
  rows_of rows bug cve true false ->
  rows_of (rows ≫= join_row Build_package) bug cve true true.
Proof.
  intros Hrows r. rewrite list_elem_of_bind. split.
  - intros (r0 & Hr & (u & Hu & Hup & Hbug & Hcve & b & Hb & Hbuild & Hpkg)%Hrows).
    simpl in Hr. rewrite Hbuild in Hr. apply list_elem_of_singleton in Hr as ->.
    exists u. split; [done|]. unfold joined_with; simpl.
    split; [done|]. split; [done|]. split; [done|]. by exists b.
  - intros (u & Hu & Hup & Hbug & Hcve & (b & Hb & Hbuild & Hpkg)).
    exists {| row_update := row_update r; row_bug := row_bug r;
              row_cve := row_cve r; row_build := row_build r;
              row_package := None |}.
    split.
    + simpl. rewrite Hbuild. apply list_elem_of_singleton.
      destruct r; simpl in *. by subst.
    + apply Hrows. exists u. split; [done|]. unfold joined_with; simpl.
      split; [done|]. split; [done|]. split; [done|]. by exists b.
Qed.

(** The FROM clause of a filtered query holds the joined rows of the
    table's updates and nothing else. *)
Lemma elem_of_from_rows_joined (data : Data.t) (r : row) :
  r ∈ from_rows db (joined data) <-> ∃ u, u ∈ db ∧ joined_row data u r.
Proof.
  revert r. unfold joined_row, joined, from_rows.
  destruct (Data.bugs data), (Data.cves data), (Data.packages data),
    (Data.builds data); simpl;
    repeat first
      [ apply join_package_joined | apply join_builds_joined
      | apply join_cves_joined | apply join_bugs_joined ];
    apply update_rows_joined.
Qed.
End JoinedRowsProperties.

Lemma any_of_impl {A} (or_empty : bool) (values : list A) (P Q : A -> Prop) :
  (∀ v, P v -> Q v) -> any_of or_empty values P -> any_of or_empty values Q.
Proof.
  intros HPQ. unfold any_of. destruct values; [done|].
  intros (v & Hv & HP). exists v. split; [done | by apply HPQ].
Qed.

Section FilterComposition.
Variable or_empty : bool.
Variable sql_like : string -> string -> bool.

Local Abbreviation selects := (selects or_empty sql_like).
Local Abbreviation any_of := (any_of or_empty).
Local Abbreviation matches := (matches or_empty sql_like).
Local Abbreviation listed_rows := (listed_rows or_empty sql_like).
Local Abbreviation page_rows := (page_rows or_empty sql_like).
Local Abbreviation query_updates := (query_updates or_empty sql_like).

(** C5, as the code has it.  In every answer of the view: the query
    has one criterion per supplied filter and none for an absent one;
    [total] is the number of joined rows that pass all of them; every
    update listed is an update of the table with a joined row that
    satisfies every supplied filter, a filter with several values
    being satisfied by any one of them; when the whole listing fits
    the first page, every such update is listed; and with [packages]
    and [builds] both supplied it is one and the same build of a
    listed update that has a listed package name and a listed NVR. *)
Theorem query_updates_filters_compose (db : list Update) (data : Data.t)
  (l : Listing.t) :
  query_updates db data = Returned l ->
  criteria (filtered_query data) = filter_criteria data
  ∧ joins (filtered_query data) = joined data
  ∧ (∀ r, selects (filtered_query data) r = true <-> matches data r)
  ∧ Listing.total l
    = Z.of_nat (length (List.filter (selects (filtered_query data))
                          (from_rows db (joined data))))
  ∧ (∀ u, u ∈ Listing.updates l ->
          u ∈ db ∧ ∃ r, joined_row data u r ∧ matches data r)
  ∧ (Data.page data = 1 ->
     Listing.total l <= Data.rows_per_page data ->
     ∀ u r, u ∈ db -> joined_row data u r -> matches data r ->
            ∃ u', u' ∈ Listing.updates l ∧ id u' = id u)
  ∧ (∀ names nvrs u,
       Data.packages data = Some names ->
       Data.builds data = Some nvrs ->
       u ∈ Listing.updates l ->
       ∃ b, b ∈ builds u
            ∧ any_of names (fun s => package_name (package b) = s)
            ∧ any_of nvrs (fun s => nvr b = s)).
Proof.
  intros Hl.
  destruct (query_updates_returned or_empty sql_like db data l Hl)
    as (_ & _ & _ & _ & Htotal & Hupdates & _).
  assert (Hsound : ∀ u, u ∈ Listing.updates l ->
            u ∈ db ∧ ∃ r, joined_row data u r ∧ matches data r).
  { intros u Hu.
    destruct (listed_update_row or_empty sql_like db data l u Hl Hu)
      as (r & Hr & Hup).
    apply elem_of_listed_rows in Hr as [Hfrom Hmatch].
    rewrite joins_filtered_query in Hfrom.
    apply elem_of_from_rows_joined in Hfrom as (u0 & Hu0 & Hjoined).
    assert (u0 = u) as -> by (destruct Hjoined as [<- _]; done).
    split; [done|]. by exists r. }
  split; [apply criteria_filtered_query|].
  split; [apply joins_filtered_query|].
  split; [intros r; apply selects_matches|].
  split.
  { rewrite Htotal. unfold ListingSpec.listed_rows, selected_rows; simpl.
    rewrite order_filtered_query; simpl.
    by rewrite merge_sort_Permutation, joins_filtered_query. }
  split; [exact Hsound|]. split.
  - intros Hpage Hfits u r Hu Hjoined Hmatch.
    assert (Hr : r ∈ listed_rows db data).
    { apply elem_of_listed_rows. split; [|done].
      rewrite joins_filtered_query. apply elem_of_from_rows_joined. eauto. }
    assert (Hall : page_rows db data = listed_rows db data).
    { unfold ListingSpec.page_rows. rewrite Hpage. simpl.
      rewrite Z.mul_0_r. simpl. apply take_ge. lia. }
    destruct (unique_list_complete ∅ (row_update <$> listed_rows db data)
                (row_update r)) as (u' & Hu' & Hid).
    { apply list_elem_of_fmap. by exists r. }
    { apply not_elem_of_empty. }
    exists u'. rewrite Hupdates, Hall. split; [done|].
    destruct Hjoined as [<- _]. done.
  - intros names nvrs u Hpackages Hbuilds Hu.
    destruct (Hsound u Hu) as (_ & r & Hjoined & Hmatch).
    unfold joined_row, joined_with in Hjoined.
    rewrite Hpackages in Hjoined. simpl in Hjoined.
    destruct Hjoined as (_ & _ & _ & b & Hb & Hbuild & Hpkg).
    unfold ListingSpec.matches in Hmatch.
    destruct Hmatch as (_ & _ & _ & _ & _ & _ & _ & Hnames & Hnvrs & _).
    exists b. split; [done|]. split.
    + eapply any_of_impl; [|exact (Hnames names Hpackages)].
      intros s (p & Hp & <-). rewrite Hpkg in Hp. by injection Hp as <-.
    + eapply any_of_impl; [|exact (Hnvrs nvrs Hbuilds)].
      intros s (b' & Hb' & <-). rewrite Hbuild in Hb'. by injection Hb' as <-.
Qed.
End FilterComposition.

(** C5 as the specification words it, with the filters combining by
    AND into the intersection of what each lists alone, does not hold
    for [packages] with [builds]: update 3 has a kernel build and the
    build bash-5.1-1, is listed for either filter, and is not listed
    for both, no single build of it being a kernel build named
    bash-5.1-1. *)
Lemma query_updates_packages_builds_not_intersection :
  ¬ (∀ (db : list Update) (packages builds : list string) (i : Z),
       i ∈ listed db (by_packages_builds (Some packages) (Some builds))
       <-> i ∈ listed db (by_packages_builds (Some packages) None)
           ∧ i ∈ listed db (by_packages_builds None (Some builds))).
Proof.
  intros Hclaim.
  destruct (Hclaim Fixtures.db4 ["kernel"] ["bash-5.1-1"] 3) as [_ Hboth].
  assert (Hlisted : 3 ∈ listed Fixtures.db4
                          (by_packages_builds (Some ["kernel"])
                             (Some ["bash-5.1-1"]))).
  { apply Hboth. split; vm_compute; constructor. }
  vm_compute in Hlisted. by apply elem_of_nil in Hlisted.
Qed.

Lemma query_updates_filters_compose_witness :
  let data := by_packages_builds (Some ["kernel"]) (Some ["kernel-5.1-1"]) in
  let l := ListingFixtures.answer (ListingFixtures.run Fixtures.db4 data) in
  let b := {| nvr := "kernel-5.1-1"; package := Fixtures.kernel |} in
  let r := {| row_update := Fixtures.u3; row_bug := None; row_cve := None;
              row_build := Some b; row_package := Some Fixtures.kernel |} in
  query_updates true like_match Fixtures.db4 data = Returned l
  ∧ Fixtures.u3 ∈ Listing.updates l
  ∧ Data.page data = 1
  ∧ Listing.total l <= Data.rows_per_page data
  ∧ Fixtures.u3 ∈ Fixtures.db4
  ∧ joined_row data Fixtures.u3 r
  ∧ matches true like_match data r
  ∧ Data.packages data = Some ["kernel"]
  ∧ Data.builds data = Some ["kernel-5.1-1"]
  ∧ (∃ u', u' ∈ Listing.updates l ∧ id u' = id Fixtures.u3)
  ∧ (∃ b', b' ∈ builds Fixtures.u3
           ∧ any_of true ["kernel"] (fun s => package_name (package b') = s)
           ∧ any_of true ["kernel-5.1-1"] (fun s => nvr b' = s))
  ∧ Listing.total l = 1.
Proof.
  intros data l b r.
  assert (Hl : query_updates true like_match Fixtures.db4 data = Returned l)
    by (vm_compute; reflexivity).
  assert (Hu : Fixtures.u3 ∈ Listing.updates l) by (vm_compute; constructor).
  assert (Hfits : Listing.total l <= Data.rows_per_page data)
    by (vm_compute; discriminate).
  assert (Hdb : Fixtures.u3 ∈ Fixtures.db4)
    by (vm_compute; repeat constructor).
  assert (Hjoined : joined_row data Fixtures.u3 r).
  { unfold joined_row, joined_with; simpl.
    split; [done|]. split; [done|]. split; [done|].
    exists b. split; [vm_compute; repeat constructor | done]. }
  assert (Hmatch : matches true like_match data r)
    by (apply selects_matches; vm_compute; reflexivity).
  destruct (query_updates_filters_compose true like_match Fixtures.db4 data l Hl)
    as (_ & _ & _ & Htotal & _ & Hcomplete & Hbuild).
  split; [exact Hl|]. split; [exact Hu|]. split; [reflexivity|].
  split; [exact Hfits|]. split; [exact Hdb|]. split; [exact Hjoined|].
  split; [exact Hmatch|]. split; [reflexivity|]. split; [reflexivity|].
  split; [exact (Hcomplete eq_refl Hfits Fixtures.u3 r Hdb Hjoined Hmatch)|].
  split; [exact (Hbuild ["kernel"] ["kernel-5.1-1"] Fixtures.u3
                   eq_refl eq_refl Hu)|].
  rewrite Htotal. vm_compute. reflexivity.
Defined.

(** The fixture of the counterexample, evaluated. *)
Example listing_packages_and_builds :
  listed Fixtures.db4 (by_packages_builds (Some ["kernel"]) None) = [3; 1]
  ∧ listed Fixtures.db4 (by_packages_builds None (Some ["bash-5.1-1"])) = [3]
  ∧ listed Fixtures.db4
      (by_packages_builds (Some ["kernel"]) (Some ["bash-5.1-1"])) = [].
Proof. vm_compute. repeat split. Qed.

(** *** The listing on the fixtures *)

Section ListingExamples.
Import Fixtures ListingFixtures.


Lemma query_updates_release_and_releases_witness :
  let l := answer (run db4 F30_among_F30_F31) in
  Data.releases F30_among_F30_F31 = Some [F30; F31]
  ∧ Data.release F30_among_F30_F31 = Some F30
  ∧ query_updates true like_match db4 F30_among_F30_F31 = Returned l
  ∧ u3 ∈ Listing.updates l
  ∧ release_id (release u3) = release_id F30
  ∧ [F30; F31] ≠ []
  ∧ ∃ rel', rel' ∈ [F30; F31] ∧ release_id rel' = release_id F30
            ∧ release_id (release u3) = release_id rel'.
Proof.
  intros l.
  assert (Hl : query_updates true like_match db4 F30_among_F30_F31
               = Returned l) by (vm_compute; reflexivity).
  assert (Hu : u3 ∈ Listing.updates l) by (vm_compute; constructor).
  split; [reflexivity|]. split; [reflexivity|].
  split; [exact Hl|]. split; [exact Hu|].
  destruct (query_updates_release_and_releases true like_match db4
              F30_among_F30_F31 [F30; F31] F30 l u3 eq_refl eq_refl Hl Hu)
    as (Hsingular & _ & Hlisted).
  split; [exact Hsingular|].
  assert (Hne : [F30; F31] ≠ []) by discriminate.
  split; [exact Hne | exact (Hlisted Hne)].
Defined.

Lemma query_updates_ordered_witness :
  let l := answer (run db4 (everything 1 10)) in
  query_updates true like_match db4 (everything 1 10) = Returned l
  ∧ StronglySorted submitted_desc (Listing.updates l).
Proof.
  intros l.
  assert (Hl : query_updates true like_match db4 (everything 1 10)
               = Returned l) by (vm_compute; reflexivity).
  split; [exact Hl|].
  apply (query_updates_ordered true like_match db4 (everything 1 10) l Hl).
Defined.

(** Twenty-five updates, ten a page: three pages, the fourth empty. *)
Example listing_25_by_10_page_4 :
  listed_total (run db25 (everything 4 10)) = Some 25
  ∧ listed_pages (run db25 (everything 4 10)) = Some 3
  ∧ listed_ids (run db25 (everything 4 10)) = Some [].
Proof. vm_compute. repeat split. Qed.

Example listing_25_by_10_page_3 :
  listed_ids (run db25 (everything 3 10)) = Some [5; 4; 3; 2; 1]
  ∧ listed_pages (run db25 (everything 3 10)) = Some 3.
Proof. vm_compute. repeat split. Qed.

Example listing_nothing :
  listed_total (run [] (everything 1 10)) = Some 0
  ∧ listed_pages (run [] (everything 1 10)) = Some 0.
Proof. vm_compute. repeat split. Qed.

(** [release = F30] with [releases = [F30, F31]]: the F30 updates only. *)
Example listing_F30_among_F30_F31 :
  listed_ids (run db4 F30_among_F30_F31) = Some [3; 1]
  ∧ listed_ids (run db4 F30_or_F31) = Some [2; 3; 4; 1].
Proof. vm_compute. repeat split. Qed.

(** [status = stable] and [type = security]: what both single filters
    list. *)
Example listing_stable_security :
  listed_ids (run db4 stable_only) = Some [2; 1]
  ∧ listed_ids (run db4 security_only) = Some [3; 1]
  ∧ listed_ids (run db4 stable_security) = Some [1].
Proof. vm_compute. repeat split. Qed.

(** [bugs = [11, 12]]: update 1 carries both bugs and is joined twice;
    it is listed once and counted twice. *)
Example listing_bugs_11_12 :
  listed_ids (run db4 bugs_11_12) = Some [2; 1]
  ∧ listed_total (run db4 bugs_11_12) = Some 3.
Proof. vm_compute. repeat split. Qed.

(** A page size of zero divides by zero; page zero asks the database
    for a negative offset. *)
Example listing_zero_rows_per_page :
  run db4 (everything 1 0)
  = Raised (ZeroDivisionError "float division by zero").
Proof. vm_compute. reflexivity. Qed.

Example listing_page_zero :
  run db4 (everything 0 10)
  = Raised (DataError "OFFSET must not be negative").
Proof. vm_compute. reflexivity. Qed.
End ListingExamples.

(** * Further properties *)

(** ** More on the request transition view *)

Section SetRequestMore.
Context {W : Type}.
Variable Update_check_requirements :
  Update -> W -> outcome (bool * string) * Update * W.
Variable Update_set_request :
  Update -> UpdateRequest -> string -> W -> outcome unit * Update * W.

Local Abbreviation set_request :=
  (set_request Update_check_requirements Update_set_request).

(** The run of lines 106-111, by the answer of the model. *)
Lemma set_request_apply_run (update : Update) (action : UpdateRequest)
  (st : state W) :
  set_request_apply Update_set_request update action st
  = let st1 := add_call (Call_set_request update action
                           (request_user_name (req st))) st in
    match Update_set_request update action (request_user_name (req st))
            (world (req st)) with
    | (Returned _, update', w') =>
        (Returned (Some update'), set_req (with_world w' (req st1)) st1)
    | (Raised e, update', w') =>
        if is_BodhiException e then
          (Returned (Some update'),
           add_error (RequestRefused e) (set_req (with_world w' (req st1)) st1))
        else (Raised e, set_req (with_world w' (req st1)) st1)
    end.
Proof.
  unfold set_request_apply, update_set_request, bind, record_call; simpl.
  destruct (Update_set_request update action (request_user_name (req st))
              (world (req st))) as [[[[]|e] update'] w']; simpl; [done|].
  by destruct (is_BodhiException e).
Qed.

Lemma set_request_not_stable (update : Update) (action : UpdateRequest)
  (st : state W) :
  locked update = false ->
  action ≠ request_stable ->
  set_request update action st
  = set_request_apply Update_set_request update action st.
Proof.
  intros Hunlocked Haction. unfold Services.set_request.
  rewrite Hunlocked. by destruct (decide (action = request_stable)).
Qed.

(** X1.  For a request other than stable on an unlocked update the
    requirement checker is not consulted: the one model call of the
    run is [update.set_request(action, request.user.name)], and the
    run is the same under any other checker. *)
Theorem set_request_other_skips_checker (update : Update)
  (action : UpdateRequest) (st : state W) :
  locked update = false ->
  action ≠ request_stable ->
  calls (snd (set_request update action st))
  = calls st ++ [Call_set_request update action (request_user_name (req st))]
  ∧ ∀ checker : Update -> W -> outcome (bool * string) * Update * W,
      Services.set_request checker Update_set_request update action st
      = set_request update action st.
Proof.
  intros Hunlocked Haction. split.
  - rewrite set_request_not_stable, set_request_apply_run by done. cbv zeta.
    destruct (Update_set_request update action (request_user_name (req st))
                (world (req st))) as [[[[]|e] update'] w']; [done|].
    by destruct (is_BodhiException e).
  - intros checker. unfold Services.set_request. rewrite Hunlocked.
    by destruct (decide (action = request_stable)).
Qed.

(** X2.  What the view makes of an exception of the model's
    [set_request] (here for a request that needs no check): a
    [BodhiException] becomes one error entry carrying its message and
    the view still answers the update; any other exception leaves the
    view as it was raised, with no entry added. *)
Theorem set_request_model_raises (update update' : Update)
  (action : UpdateRequest) (st : state W) (e : exn) (w' : W) :
  locked update = false ->
  action ≠ request_stable ->
  Update_set_request update action (request_user_name (req st)) (world (req st))
  = (Raised e, update', w') ->
  (is_BodhiException e = true ->
     fst (set_request update action st) = Returned (Some update')
     ∧ errors (req (snd (set_request update action st)))
       = errors (req st) ++ [Error "body" "request" (message e)])
  ∧ (is_BodhiException e = false ->
     fst (set_request update action st) = Raised e
     ∧ errors (req (snd (set_request update action st))) = errors (req st)).
Proof.
  intros Hunlocked Haction Hraise.
  rewrite set_request_not_stable, set_request_apply_run by done. cbv zeta.
  rewrite Hraise. split; intros ->; done.
Qed.

(** X3.  An exception of [check_requirements] is not handled: the view
    raises it, adds no error, and the request is not applied. *)
Theorem set_request_checker_raises (update update' : Update) (st : state W)
  (e : exn) (w' : W) :
  locked update = false ->
  Update_check_requirements update (world (req st)) = (Raised e, update', w') ->
  fst (set_request update request_stable st) = Raised e
  ∧ errors (req (snd (set_request update request_stable st))) = errors (req st)
  ∧ calls (snd (set_request update request_stable st))
    = calls st ++ [Call_check_requirements update].
Proof.
  intros Hunlocked Hraise. unfold Services.set_request. rewrite Hunlocked.
  destruct (decide (request_stable = request_stable)); [|done].
  unfold check_requirements, bind, record_call; simpl. by rewrite Hraise.
Qed.

(** X4.  Whatever the update, the request and the models do, the view
    keeps the errors already on the request, adds at most one, and
    touches neither the validated data nor the log. *)
Theorem set_request_errors_grow (update : Update) (action : UpdateRequest)
  (st : state W) :
  ∃ es, errors (req (snd (set_request update action st)))
        = errors (req st) ++ es
        ∧ (length es ≤ 1)%nat
        ∧ validated (req (snd (set_request update action st)))
          = validated (req st)
        ∧ logged (snd (set_request update action st)) = logged st.
Proof.
  assert (Happly : ∀ u (st0 : state W),
             ∃ es, errors (req (snd (set_request_apply Update_set_request
                                       u action st0)))
                   = errors (req st0) ++ es
                   ∧ (length es ≤ 1)%nat
                   ∧ validated (req (snd (set_request_apply Update_set_request
                                            u action st0)))
                     = validated (req st0)
                   ∧ logged (snd (set_request_apply Update_set_request
                                    u action st0)) = logged st0).
  { intros u st0. rewrite set_request_apply_run. cbv zeta.
    destruct (Update_set_request u action (request_user_name (req st0))
                (world (req st0))) as [[[[]|e] u'] w'].
    - exists []. rewrite app_nil_r. simpl. repeat split; lia.
    - destruct (is_BodhiException e).
      + exists [RequestRefused e]. simpl. repeat split; lia.
      + exists []. rewrite app_nil_r. simpl. repeat split; lia. }
  unfold Services.set_request.
  destruct (locked update).
  { exists [LockedUpdate]. simpl. repeat split; lia. }
  destruct (decide (action = request_stable)) as [Hstable|]; [|apply Happly].
  unfold check_requirements, bind, record_call; simpl.
  destruct (Update_check_requirements update (world (req st)))
    as [[[[result reason]|e] u'] w']; simpl.
  - destruct result; simpl.
    + match goal with
      | |- context [set_request_apply _ ?u _ ?s] =>
          destruct (Happly u s) as (es & Hes & Hlen & Hval & Hlog)
      end.
      exists es. by rewrite Hes, Hval, Hlog.
    + exists [RequirementNotMet reason]. simpl. repeat split; lia.
  - exists []. rewrite app_nil_r. simpl. repeat split; lia.
Qed.

(** X5.  The model calls of a run are, in this order: the requirement
    check, once, and only for a stable request on an unlocked update;
    then [update.set_request], at most once, with the requested action
    and [request.user.name], and only if the check did not turn the
    request down. *)
Theorem set_request_call_order (update : Update) (action : UpdateRequest)
  (st : state W) :
  ∃ cs, calls (snd (set_request update action st)) = calls st ++ cs
        ∧ (cs = []
           ∨ cs = [Call_set_request update action (request_user_name (req st))]
           ∨ (action = request_stable
              ∧ (cs = [Call_check_requirements update]
                 ∨ ∃ reason update' w',
                     Update_check_requirements update (world (req st))
                     = (Returned (true, reason), update', w')
                     ∧ cs = [Call_check_requirements update;
                             Call_set_request update' action
                               (request_user_name (req st))]))).
Proof.
  assert (Happly : ∀ u (st0 : state W),
             calls (snd (set_request_apply Update_set_request u action st0))
             = calls st0
               ++ [Call_set_request u action (request_user_name (req st0))]).
  { intros u st0. rewrite set_request_apply_run. cbv zeta.
    destruct (Update_set_request u action (request_user_name (req st0))
                (world (req st0))) as [[[[]|e] u'] w']; [done|].
    by destruct (is_BodhiException e). }
  unfold Services.set_request.
  destruct (locked update).
  { exists []. rewrite app_nil_r. by split; [|left]. }
  destruct (decide (action = request_stable)) as [Hstable|].
  2: { eexists. split; [apply Happly|]. by right; left. }
  unfold check_requirements, bind, record_call; simpl.
  destruct (Update_check_requirements update (world (req st)))
    as [[[[result reason]|e] u'] w'] eqn:Hcheck; simpl.
  - destruct result; simpl.
    + rewrite Happly; simpl. rewrite <- app_assoc; simpl.
      eexists. split; [reflexivity|]. right; right. split; [done|]. right.
      by exists reason, u', w'.
    + eexists. split; [reflexivity|]. right; right. by split; [|left].
  - eexists. split; [reflexivity|]. right; right. by split; [|left].
Qed.
End SetRequestMore.

(** ** More on the creation and edit view *)

Section NewUpdateMore.
Context {W : Type}.
Variable Update_edit : Request W -> outcome Update * Request W.
Variable Update_new : Request W -> outcome Update * Request W.
Variable Update_obsolete_older_updates :
  Update -> Request W -> outcome unit * Update * Request W.

Local Abbreviation new_update_try := (new_update_try Update_edit Update_new).
Local Abbreviation new_update :=
  (new_update Update_edit Update_new Update_obsolete_older_updates).

(** The [try] either raises before any model call and leaves the state
    as it found it, or makes the one call of its branch. *)
Lemma new_update_try_run (st : state W) :
  (∃ e, new_update_try st = (Raised e, st))
  ∨ (truthy (dict_get (validated (req st)) "edited") = true
     ∧ calls (snd (new_update_try st))
       = calls st ++ [Call_edit (validated (req st))])
  ∨ (truthy (dict_get (validated (req st)) "edited") = false
     ∧ calls (snd (new_update_try st))
       = calls st ++ [Call_new (validated (req st))]).
Proof.
  unfold Services.new_update_try, bind, get_validated; simpl.
  destruct (truthy (dict_get (validated (req st)) "edited")) eqn:Hedited.
  - unfold validated_getitem.
    destruct (validated (req st) !! "edited"); simpl; [|eauto].
    right; left. split; [done|].
    unfold edit, bind, record_call; simpl.
    by destruct (Update_edit (req st)) as [o r'].
  - unfold validated_getitem.
    destruct (validated (req st) !! "builds") as [b|]; simpl; [|eauto].
    unfold lift. destruct (str_join " " b) as [nvrs|e]; simpl; [|eauto].
    right; right. split; [done|].
    unfold new, bind, record_call, log_; simpl.
    by destruct (Update_new (req st)) as [[up|e] r'].
Qed.

(** The model calls of a run of [new_update]. *)
Lemma new_update_calls (st : state W) :
  let d := delete "csrf_token" (validated (req st)) in
  ∃ cs, calls (snd (new_update st)) = calls st ++ cs
        ∧ (cs = []
           ∨ (truthy (dict_get d "edited") = true
              ∧ (cs = [Call_edit d]
                 ∨ ∃ up, cs = [Call_edit d; Call_obsolete_older_updates up]))
           ∨ (truthy (dict_get d "edited") = false
              ∧ (cs = [Call_new d]
                 ∨ ∃ up, cs = [Call_new d; Call_obsolete_older_updates up]))).
Proof.
  intros d.
  destruct (validated (req st) !! "csrf_token") as [token|] eqn:Htoken.
  2: { rewrite (new_update_no_token _ _ _ st Htoken). exists [].
       rewrite app_nil_r. by split; [|left]. }
  rewrite (new_update_unfold _ _ _ st token Htoken).
  destruct (new_update_try_run (at_try st)) as [[e Hraise]|Hcall].
  { rewrite Hraise. exists [].
    destruct (is_LockedUpdateException e); rewrite app_nil_r; by split; [|left]. }
  change (validated (req (at_try st))) with d in Hcall.
  change (calls (at_try st)) with (calls st) in Hcall.
  destruct (new_update_try (at_try st)) as [[up0|e] st2]; simpl in Hcall.
  - destruct (Update_obsolete_older_updates up0 (req st2))
      as [[[[]|e] up] r']; simpl;
      (destruct Hcall as [[Hedited ->]|[Hedited ->]];
       rewrite <- app_assoc; simpl; eexists; (split; [reflexivity|]);
       [right; left | right; right]; (split; [done|]); right; by exists up0).
  - destruct (is_LockedUpdateException e); simpl;
      (destruct Hcall as [[Hedited ->]|[Hedited ->]];
       eexists; (split; [reflexivity|]);
       [right; left | right; right]; (split; [done|]); by left).
Qed.

(** X6.  A submission without [csrf_token] ends at [data.pop]: the
    view raises [KeyError], having logged the data; no model method is
    called, no error is added and the submission is as it was. *)
Theorem new_update_without_token (st : state W) :
  validated (req st) !! "csrf_token" = None ->
  fst (new_update st) = Raised (KeyError "csrf_token")
  ∧ calls (snd (new_update st)) = calls st
  ∧ req (snd (new_update st)) = req st
  ∧ logged (snd (new_update st))
    = logged st ++ [Log_validated (validated (req st))].
Proof.
  intros Htoken.
  by rewrite (new_update_no_token _ _ _ st Htoken).
Qed.

(** X7.  The csrf token never reaches the models: the submission handed
    to [Update.edit] or [Update.new] is the validated data without its
    [csrf_token], every other key as validated. *)
Theorem new_update_token_not_passed (st : state W) (c : call)
  (d : gmap string pyval) :
  c ∈ new_calls st (snd (new_update st)) ->
  submission_of c = Some d ->
  d !! "csrf_token" = None
  ∧ ∀ k, k ≠ "csrf_token" -> d !! k = validated (req st) !! k.
Proof.
  intros Hc Hd.
  destruct (new_update_calls st) as (cs & Hcalls & Hcs).
  unfold new_calls in Hc. rewrite Hcalls, drop_app_length in Hc.
  assert (d = delete "csrf_token" (validated (req st))) as ->.
  { destruct Hcs as [->|[[_ Hcs]|[_ Hcs]]].
    - by apply elem_of_nil in Hc.
    - destruct Hcs as [->|[up ->]];
        repeat (apply elem_of_cons in Hc as [->|Hc]);
        simpl in Hd; try congruence; by apply elem_of_nil in Hc.
    - destruct Hcs as [->|[up ->]];
        repeat (apply elem_of_cons in Hc as [->|Hc]);
        simpl in Hd; try congruence; by apply elem_of_nil in Hc. }
  split; [apply lookup_delete_eq|].
  intros k Hk. by apply lookup_delete_ne.
Qed.

(** X8.  With a truthy [edited] the step is the edit: [Update.edit] is
    the first model call, on the submission without its token,
    [Update.new] is never called, and [builds] is not looked at, so
    the submission may lack it. *)
Theorem new_update_edited_truthy (st : state W) (token : pyval) :
  validated (req st) !! "csrf_token" = Some token ->
  truthy (dict_get (validated (req st)) "edited") = true ->
  ∃ cs, calls (snd (new_update st))
        = calls st
          ++ Call_edit (delete "csrf_token" (validated (req st))) :: cs
        ∧ Forall (fun c => is_Call_edit c = false
                           ∧ submission_of c = None) cs.
Proof.
  intros Htoken Hedited.
  assert (Hget : truthy (dict_get (delete "csrf_token" (validated (req st)))
                           "edited") = true).
  { unfold dict_get in *. by rewrite lookup_delete_ne. }
  destruct (validated (req st) !! "edited") as [v|] eqn:Hv.
  2: { unfold dict_get in Hedited. by rewrite Hv in Hedited. }
  rewrite (new_update_unfold _ _ _ st token Htoken).
  unfold Services.new_update_try, bind, get_validated; simpl.
  rewrite Hget. unfold validated_getitem; simpl.
  rewrite lookup_delete_ne, Hv by done. simpl.
  unfold edit, bind, record_call; simpl.
  destruct (Update_edit _) as [[up|e] r']; simpl.
  - destruct (Update_obsolete_older_updates up r') as [[[[]|e] up'] r''];
      simpl; rewrite <- app_assoc; simpl; eexists;
      (split; [reflexivity|]); by repeat constructor.
  - destruct (is_LockedUpdateException e); simpl; eexists;
      (split; [reflexivity|]); by repeat constructor.
Qed.

(** X9.  Without the [edited] key the step is the creation:
    [Update.edit] is never called. *)
Theorem new_update_edited_absent (st : state W) :
  validated (req st) !! "edited" = None ->
  Forall (fun c => is_Call_edit c = false)
    (new_calls st (snd (new_update st))).
Proof.
  intros Habsent.
  destruct (new_update_calls st) as (cs & Hcalls & Hcs).
  unfold new_calls. rewrite Hcalls, drop_app_length.
  assert (Hget : truthy (dict_get (delete "csrf_token" (validated (req st)))
                           "edited") = false).
  { unfold dict_get. by rewrite lookup_delete_ne, Habsent. }
  destruct Hcs as [->|[[Hedited _]|[_ Hcs]]]; [constructor | congruence |].
  destruct Hcs as [->|[up ->]]; by repeat constructor.
Qed.

(** X10.  On the creation branch a submission whose [builds] is
    missing, or is not a sequence of strings, is turned down before
    any model call: the [KeyError] or [TypeError] is logged and the
    answer is the CreationFailed error. *)
Theorem new_update_without_builds (st : state W) (token : pyval) :
  validated (req st) !! "csrf_token" = Some token ->
  truthy (dict_get (validated (req st)) "edited") = false ->
  (validated (req st) !! "builds" = None
   ∨ ∃ builds e, validated (req st) !! "builds" = Some builds
                 ∧ str_join " " builds = Raised e) ->
  ∃ e, is_LockedUpdateException e = false
       ∧ new_update st
         = (Returned None,
            add_error CreationFailed (add_log (Log_exception e) (at_try st)))
       ∧ calls (snd (new_update st)) = calls st.
Proof.
  intros Htoken Hedited Hbuilds.
  assert (Hget : truthy (dict_get (delete "csrf_token" (validated (req st)))
                           "edited") = false).
  { unfold dict_get in *. by rewrite lookup_delete_ne. }
  rewrite (new_update_unfold _ _ _ st token Htoken).
  unfold Services.new_update_try, bind, get_validated; simpl.
  rewrite Hget. unfold validated_getitem; simpl.
  rewrite lookup_delete_ne by done.
  destruct Hbuilds as [->|(builds & e & -> & Hjoin)]; simpl.
  - by exists (KeyError "builds").
  - unfold lift. rewrite Hjoin. simpl.
    assert (Hclass : is_LockedUpdateException e = false).
    { unfold str_join in Hjoin.
      destruct builds as [|b|n|s|l]; try discriminate;
        try (by injection Hjoin as <-).
      destruct (all_strs l); [discriminate | by injection Hjoin as <-]. }
    exists e. by rewrite Hclass.
Qed.

(** X11.  A run makes at most two model calls: [Update.edit] or
    [Update.new], never both, and the obsoletion only after one of
    them. *)
Theorem new_update_call_order (st : state W) :
  ∃ cs, calls (snd (new_update st)) = calls st ++ cs
        ∧ (cs = []
           ∨ ∃ d first,
               (first = Call_edit d ∨ first = Call_new d)
               ∧ (cs = [first]
                  ∨ ∃ up, cs = [first; Call_obsolete_older_updates up])).
Proof.
  destruct (new_update_calls st) as (cs & Hcalls & Hcs).
  exists cs. split; [exact Hcalls|].
  destruct Hcs as [->|[[_ Hcs]|[_ Hcs]]]; [by left | right | right].
  - eexists _, _. split; [by left|].
    destruct Hcs as [->|[up ->]]; [by left | right; by exists up].
  - eexists _, _. split; [by right|].
    destruct Hcs as [->|[up ->]]; [by left | right; by exists up].
Qed.

(** X12.  The bare [return] never comes without an error: when the view
    answers no update, the last entry of [request.errors] is the one a
    handler added, with location body and name builds. *)
Theorem new_update_none_has_error (st st' : state W) :
  new_update st = (Returned None, st') ->
  ∃ es e, errors (req st') = es ++ [e]
          ∧ location e = "body" ∧ name e = "builds"
          ∧ succeeded (new_update st) = false.
Proof.
  intros Hrun.
  destruct (validated (req st) !! "csrf_token") as [token|] eqn:Htoken.
  2: { by rewrite (new_update_no_token _ _ _ st Htoken) in Hrun. }
  rewrite Hrun.
  rewrite (new_update_unfold _ _ _ st token Htoken) in Hrun.
  destruct (new_update_try (at_try st)) as [[up0|e] st2].
  - by destruct (Update_obsolete_older_updates up0 (req st2))
      as [[[[]|e] up] r'].
  - destruct (is_LockedUpdateException e); injection Hrun as <-; simpl;
      eexists _, _; (split; [reflexivity|]); (split; [done|]);
      (split; [done|]); by destruct (errors (req st2)).
Qed.
End NewUpdateMore.

(** ** More on the listing view *)

Lemma unique_list_length (seen : gset Z) (l : list Update) :
  (length (unique_list seen l) ≤ length l)%nat.
Proof.
  revert seen. induction l as [|u l IH]; intros seen; simpl; [lia|].
  destruct (decide (id u ∈ seen)).
  - specialize (IH seen). lia.
  - specialize (IH ({[id u]} ∪ seen)). simpl. lia.
Qed.

Lemma unique_list_not_seen (seen : gset Z) (l : list Update) (u : Update) :
  u ∈ unique_list seen l -> id u ∉ seen.
Proof.
  revert seen. induction l as [|x l IH]; intros seen; simpl.
  - by intros ?%elem_of_nil.
  - destruct (decide (id x ∈ seen)); [apply IH|].
    intros [->|Hu%IH]%elem_of_cons; [done|].
    intros Hseen. apply Hu, elem_of_union. by right.
Qed.

Lemma unique_list_NoDup (seen : gset Z) (l : list Update) :
  NoDup (id <$> unique_list seen l).
Proof.
  revert seen. induction l as [|x l IH]; intros seen; simpl; [constructor|].
  destruct (decide (id x ∈ seen)); [apply IH|].
  csimpl. constructor; [|apply IH].
  intros (u & Hid & Hu%unique_list_not_seen)%list_elem_of_fmap.
  apply Hu, elem_of_union. left. apply elem_of_singleton. congruence.
Qed.

Lemma filter_fmap {A B} (f : A -> B) (P : B -> bool) (l : list A) :
  List.filter P (f <$> l) = f <$> List.filter (fun a => P (f a)) l.
Proof.
  induction l as [|a l IH]; csimpl; [done|].
  destruct (P (f a)); csimpl; by rewrite IH.
Qed.

Section ListingMore.
Variable or_empty : bool.
Variable sql_like : string -> string -> bool.

Local Abbreviation selects := (selects or_empty sql_like).
Local Abbreviation matches := (matches or_empty sql_like).
Local Abbreviation listed_rows := (listed_rows or_empty sql_like).
Local Abbreviation page_rows := (page_rows or_empty sql_like).
Local Abbreviation query_updates := (query_updates or_empty sql_like).

(** X13.  A page size of zero is a division by zero: whatever the
    table, the filters and the page, the view raises
    [ZeroDivisionError]. *)
Theorem query_updates_zero_rows_per_page (db : list Update) (data : Data.t) :
  Data.rows_per_page data = 0 ->
  query_updates db data = Raised (ZeroDivisionError "float division by zero").
Proof.
  intros Hzero. unfold UpdatesView.query_updates, count, execute; simpl.
  destruct (paging_filtered_query data) as [-> ->]; simpl.
  unfold ceil_div. by rewrite Hzero.
Qed.

(** X14.  An answer holds at most [rows_per_page] items, and never more
    than [total]. *)
Theorem query_updates_page_size (db : list Update) (data : Data.t)
  (l : Listing.t) :
  query_updates db data = Returned l ->
  Z.of_nat (length (Listing.updates l)) <= Data.rows_per_page data
  ∧ Z.of_nat (length (Listing.updates l)) <= Listing.total l.
Proof.
  intros Hl.
  destruct (query_updates_returned or_empty sql_like db data l Hl)
    as (_ & _ & Hrows & _ & -> & -> & _).
  pose proof (unique_list_length ∅ (row_update <$> page_rows db data)) as Hle.
  rewrite length_fmap in Hle.
  assert (Hpage : (length (page_rows db data)
                   ≤ Z.to_nat (Data.rows_per_page data)
                   ∧ length (page_rows db data)
                     ≤ length (listed_rows db data))%nat).
  { unfold ListingSpec.page_rows. rewrite length_take, length_drop. lia. }
  lia.
Qed.

(** X15.  No update is listed twice in an answer, however many of its
    joined rows fall on the page. *)
Theorem query_updates_no_duplicate (db : list Update) (data : Data.t)
  (l : Listing.t) :
  query_updates db data = Returned l ->
  NoDup (id <$> Listing.updates l).
Proof.
  intros Hl.
  destruct (query_updates_returned or_empty sql_like db data l Hl)
    as (_ & _ & _ & _ & _ & -> & _).
  apply unique_list_NoDup.
Qed.

(** X19.  With none of the four filters that join another table, the
    rows listed are the updates of the table that pass the filters,
    each once, and [total] is their number. *)
Theorem query_updates_without_joins (db : list Update) (data : Data.t) :
  Data.bugs data = None ->
  Data.cves data = None ->
  Data.packages data = None ->
  Data.builds data = None ->
  listed_rows db data
  ≡ₚ update_row
       <$> List.filter (fun u => selects (filtered_query data) (update_row u)) db
  ∧ (∀ u, u ∈ (row_update <$> listed_rows db data)
          <-> u ∈ db ∧ matches data (update_row u))
  ∧ (∀ l, query_updates db data = Returned l ->
          Listing.total l
          = Z.of_nat (length (List.filter
                                (fun u => selects (filtered_query data)
                                            (update_row u)) db))).
Proof.
  intros Hbugs Hcves Hpackages Hbuilds.
  assert (Hjoins : joins (filtered_query data) = []).
  { rewrite joins_filtered_query. unfold joined.
    by rewrite Hbugs, Hcves, Hpackages, Hbuilds. }
  assert (Hperm : listed_rows db data
                  ≡ₚ update_row
                       <$> List.filter
                             (fun u => selects (filtered_query data)
                                         (update_row u)) db).
  { unfold ListingSpec.listed_rows, selected_rows; simpl.
    rewrite order_filtered_query, Hjoins; simpl.
    rewrite merge_sort_Permutation.
    unfold from_rows; simpl. by rewrite filter_fmap. }
  split; [exact Hperm|]. split.
  - intros u. rewrite Hperm, <- list_fmap_compose.
    rewrite list_elem_of_fmap. split.
    + intros (u' & -> & Hu'). simpl.
      apply list_elem_of_In, filter_In in Hu' as [Hin Hsel].
      split; [by apply list_elem_of_In|]. by apply selects_matches.
    + intros [Hin Hmatch]. exists u. split; [done|].
      apply list_elem_of_In, filter_In. split; [by apply list_elem_of_In|].
      by apply selects_matches.
  - intros l Hl.
    destruct (query_updates_returned or_empty sql_like db data l Hl)
      as (_ & _ & _ & _ & -> & _).
    by rewrite Hperm, length_fmap.
Qed.


End ListingMore.

Lemma NoDup_fmap_filter {A B} (f : A -> B) (P : A -> bool) (l : list A) :
  NoDup (f <$> l) -> NoDup (f <$> List.filter P l).
Proof.
  induction l as [|a l IH]; csimpl; [done|].
  intros [Ha Hl]%NoDup_cons. destruct (P a); csimpl; [|by apply IH].
  apply NoDup_cons. split; [|by apply IH].
  intros (a' & Heq & Ha'%list_elem_of_In%filter_In)%list_elem_of_fmap.
  apply Ha, list_elem_of_fmap. exists a'.
  split; [done|]. apply list_elem_of_In. tauto.
Qed.

(** Rows of distinct identities all survive the uniquing. *)
Lemma unique_list_distinct (seen : gset Z) (l : list Update) :
  NoDup (id <$> l) ->
  (∀ u, u ∈ l -> id u ∉ seen) ->
  unique_list seen l = l.
Proof.
  revert seen. induction l as [|x l IH]; intros seen Hnodup Hseen; [done|].
  csimpl in Hnodup. apply NoDup_cons in Hnodup as [Hx Hl]. simpl.
  destruct (decide (id x ∈ seen)) as [Hin|_].
  { exfalso. apply (Hseen x); [apply elem_of_cons; by left | done]. }
  f_equal. apply IH; [done|].
  intros u Hu [Heq%elem_of_singleton|Hin]%elem_of_union.
  - apply Hx, list_elem_of_fmap. by exists u.
  - apply (Hseen u); [apply elem_of_cons; by right | done].
Qed.

Section FullPages.
Variable or_empty : bool.
Variable sql_like : string -> string -> bool.

Local Abbreviation selects := (selects or_empty sql_like).
Local Abbreviation listed_rows := (listed_rows or_empty sql_like).
Local Abbreviation page_rows := (page_rows or_empty sql_like).
Local Abbreviation query_updates := (query_updates or_empty sql_like).

(** Without a join the rows are the passing updates of the table. *)
Lemma listed_rows_without_joins (db : list Update) (data : Data.t) :
  joined data = [] ->
  listed_rows db data
  ≡ₚ update_row
       <$> List.filter (fun u => selects (filtered_query data) (update_row u)) db.
Proof.
  intros Hjoined.
  unfold ListingSpec.listed_rows, selected_rows; simpl.
  rewrite order_filtered_query, joins_filtered_query, Hjoined; simpl.
  rewrite merge_sort_Permutation.
  unfold from_rows; simpl. by rewrite filter_fmap.
Qed.

(** X18.  Without a joining filter and with distinct ids in the table,
    an answer for a page before the last lists exactly [rows_per_page]
    updates, and the answer for the last page lists the remainder,
    total - rows_per_page * (pages - 1), which is at least one. *)
Theorem query_updates_full_pages (db : list Update) (data : Data.t)
  (l : Listing.t) :
  Data.bugs data = None ->
  Data.cves data = None ->
  Data.packages data = None ->
  Data.builds data = None ->
  NoDup (id <$> db) ->
  1 <= Data.page data ->
  query_updates db data = Returned l ->
  (Data.page data < Listing.pages l ->
   Z.of_nat (length (Listing.updates l)) = Data.rows_per_page data)
  ∧ (Data.page data = Listing.pages l ->
     Z.of_nat (length (Listing.updates l))
     = Listing.total l - Data.rows_per_page data * (Listing.pages l - 1)
     ∧ 0 < Z.of_nat (length (Listing.updates l)) <= Data.rows_per_page data).
Proof.
  intros Hbugs Hcves Hpackages Hbuilds Hnodup Hpage Hl.
  destruct (query_updates_returned or_empty sql_like db data l Hl)
    as (Hnz & _ & Hrows & Hceil & Htotal & Hupdates & _).
  assert (Hpos : 0 < Data.rows_per_page data) by lia.
  destruct (ceil_div_positive (Z.of_nat (length (listed_rows db data)))
              _ Hpos) as (pages & Hceil' & _ & Hbounds).
  assert (pages = Listing.pages l) as -> by congruence.
  assert (Hjoined : joined data = []).
  { unfold joined. by rewrite Hbugs, Hcves, Hpackages, Hbuilds. }
  assert (Hids : NoDup (id <$> (row_update <$> listed_rows db data))).
  { rewrite (listed_rows_without_joins db data Hjoined).
    rewrite <- !list_fmap_compose.
    by apply (NoDup_fmap_filter (id ∘ (row_update ∘ update_row))). }
  assert (Hkeep : unique_list ∅ (row_update <$> page_rows db data)
                  = row_update <$> page_rows db data).
  { apply unique_list_distinct; [|intros; apply not_elem_of_empty].
    unfold ListingSpec.page_rows. rewrite fmap_take, fmap_drop.
    rewrite fmap_take, fmap_drop.
    refine (sublist_NoDup _ _ Hids _).
    etrans; [apply sublist_take | apply sublist_drop]. }
  assert (Hlen : Z.of_nat (length (Listing.updates l))
                 = Z.min (Data.rows_per_page data)
                     (Z.max 0 (Listing.total l
                               - Data.rows_per_page data
                                 * (Data.page data - 1)))).
  { rewrite Hupdates, Hkeep, length_fmap, Htotal.
    unfold ListingSpec.page_rows. rewrite length_take, length_drop.
    fold (listed_rows db data). nia. }
  rewrite <- Htotal in Hbounds.
  split; intros Hcase; rewrite Hlen; [nia|]. rewrite Hcase in *. nia.
Qed.
End FullPages.

Lemma query_updates_full_pages_witness :
  let data := ListingFixtures.everything 2 10 in
  let data' := ListingFixtures.everything 3 10 in
  let l := ListingFixtures.answer (ListingFixtures.run Fixtures.db25 data) in
  let l' := ListingFixtures.answer (ListingFixtures.run Fixtures.db25 data') in
  Data.bugs data = None ∧ Data.cves data = None
  ∧ Data.packages data = None ∧ Data.builds data = None
  ∧ NoDup (id <$> Fixtures.db25)
  ∧ 1 <= Data.page data
  ∧ query_updates true like_match Fixtures.db25 data = Returned l
  ∧ Data.page data < Listing.pages l
  ∧ Z.of_nat (length (Listing.updates l)) = 10
  ∧ query_updates true like_match Fixtures.db25 data' = Returned l'
  ∧ Data.page data' = Listing.pages l'
  ∧ Z.of_nat (length (Listing.updates l')) = Listing.total l' - 10 * (3 - 1).
Proof.
  intros data data' l l'.
  assert (Hnodup : NoDup (id <$> Fixtures.db25))
    by (apply (bool_decide_unpack _); vm_compute; reflexivity).
  assert (Hl : query_updates true like_match Fixtures.db25 data = Returned l)
    by (vm_compute; reflexivity).
  assert (Hl' : query_updates true like_match Fixtures.db25 data' = Returned l')
    by (vm_compute; reflexivity).
  assert (Hbefore : Data.page data < Listing.pages l)
    by (vm_compute; reflexivity).
  assert (Hlast : Data.page data' = Listing.pages l')
    by (vm_compute; reflexivity).
  split; [reflexivity|]. split; [reflexivity|]. split; [reflexivity|].
  split; [reflexivity|]. split; [exact Hnodup|]. split; [discriminate|].
  split; [exact Hl|]. split; [exact Hbefore|]. split.
  { apply (proj1 (query_updates_full_pages true like_match Fixtures.db25
                    data l eq_refl eq_refl eq_refl eq_refl Hnodup
                    ltac:(discriminate) Hl) Hbefore). }
  split; [exact Hl'|]. split; [exact Hlast|].
  destruct (proj2 (query_updates_full_pages true like_match Fixtures.db25
                     data' l' eq_refl eq_refl eq_refl eq_refl Hnodup
                     ltac:(discriminate) Hl') Hlast) as [Hrest _].
  rewrite Hrest. by rewrite <- Hlast.
Defined.

(** ** The metrics view *)

Section SortedBy.
Context {A : Type} (key : A -> Z).

Local Abbreviation ascending := (fun a b : A => key a ≤ key b).

Lemma insert_by_Permutation (x : A) (l : list A) :
  Metrics.insert_by key x l ≡ₚ x :: l.
Proof.
  induction l as [|y l IH]; simpl; [done|].
  destruct (key x <=? key y); [done|].
  by rewrite IH, Permutation_swap.
Qed.

Lemma sorted_by_Permutation (l : list A) : Metrics.sorted_by key l ≡ₚ l.
Proof.
  induction l as [|x l IH]; simpl; [done|].
  by rewrite insert_by_Permutation, IH.
Qed.

Lemma insert_by_sorted (x : A) (l : list A) :
  StronglySorted ascending l ->
  StronglySorted ascending (Metrics.insert_by key x l).
Proof.
  induction 1 as [|y l Hl IH Hy]; simpl; [repeat constructor|].
  destruct (Z.leb_spec (key x) (key y)) as [Hle|Hgt].
  - constructor; [by constructor|]. constructor; [done|].
    eapply Forall_impl; [exact Hy|]. simpl. lia.
  - constructor; [exact IH|].
    rewrite insert_by_Permutation. constructor; [lia | done].
Qed.

Lemma sorted_by_sorted (l : list A) :
  StronglySorted ascending (Metrics.sorted_by key l).
Proof.
  induction l as [|x l IH]; simpl; [constructor | by apply insert_by_sorted].
Qed.

(** Sorting what is sorted changes nothing. *)
Lemma sorted_by_ascending (l : list A) :
  StronglySorted ascending l -> Metrics.sorted_by key l = l.
Proof.
  induction 1 as [|x l Hl IH Hx]; simpl; [done|]. rewrite IH.
  destruct Hx as [|y l Hy _]; simpl; [done|].
  by destruct (Z.leb_spec (key x) (key y)); [|lia].
Qed.
End SortedBy.

Section MetricsProperties.
Import Metrics.
Variable json_dumps : json -> string.
Variable from_string : string -> outcome UpdateType.
Variable update_types_items : list (string * string).
Variable or_empty : bool.
Variable sql_like : string -> string -> bool.

Local Abbreviation stable_count := (stable_count or_empty sql_like).
Local Abbreviation metrics_points := (metrics_points or_empty sql_like).
Local Abbreviation metrics_data :=
  (metrics_data from_string update_types_items or_empty sql_like).
Local Abbreviation metrics :=
  (metrics json_dumps from_string update_types_items or_empty sql_like).

(** The count of the query is the count of the updates it describes. *)
Lemma stable_count_direct (db : list Update) (release : Release)
  (type : UpdateType) :
  stable_count db release type
  = Returned (Z.of_nat (length (stable_updates db release type))).
Proof.
  unfold Metrics.stable_count, count, execute, selected_rows, from_rows; simpl.
  rewrite filter_fmap, length_fmap. do 3 f_equal.
  apply filter_ext. intros u. unfold selects; simpl.
  by rewrite andb_true_r, andb_assoc.
Qed.

Lemma metrics_points_from (db : list Update) (type : UpdateType)
  (releases : list release_row) (g : nat -> nat) :
  for_each (fun ir : nat * release_row =>
              match stable_count db (row_release ir.2) type with
              | Raised e => Raised e
              | Returned num => Returned (JList [JInt (Z.of_nat ir.1); JInt num])
              end)
    (imap (fun i release => (g i, release)) releases)
  = Returned
      (imap (fun i release =>
               point (g i)
                 (Z.of_nat (length (stable_updates db (row_release release)
                                      type))))
         releases).
Proof.
  revert g. induction releases as [|r releases IH]; intros g; [done|].
  rewrite !imap_cons. cbn [for_each fst snd]. rewrite stable_count_direct.
  change ((fun i release => (g i, release)) ∘ S)
    with (fun i (release : release_row) => (g (S i), release)).
  by rewrite (IH (fun i => g (S i))).
Qed.

(** X21.  The ticks number the releases from zero in ascending order of
    [version_int], each release of the query once. *)
Theorem metrics_ticks_ascending (releases : list release_row) :
  ∃ sorted, metrics_ticks releases = imap tick sorted
            ∧ sorted ≡ₚ releases
            ∧ StronglySorted ascending_version sorted
            ∧ length (metrics_ticks releases) = length releases.
Proof.
  exists (sorted_by version_int releases). split; [done|].
  split; [apply sorted_by_Permutation|]. split; [apply sorted_by_sorted|].
  unfold metrics_ticks. by rewrite length_imap, sorted_by_Permutation.
Qed.

(** X22.  The points of a series never fail to be computed; there is
    one per release, numbered from zero in the order of the query, and
    point [i] is the number of updates of the table that are stable,
    of the series' type and of release [i]. *)
Theorem metrics_points_count (db : list Update) (releases : list release_row)
  (type : UpdateType) :
  metrics_points db releases type
  = Returned
      (imap (fun i release =>
               point i (Z.of_nat (length (stable_updates db
                                            (row_release release) type))))
         releases).
Proof. apply (metrics_points_from db type releases (fun i => i)). Qed.

Lemma metrics_data_series (db : list Update) (releases : list release_row) :
  (∀ item, item ∈ update_types_items ->
           ∃ type, from_string item.1 = Returned type) ->
  ∃ series,
    metrics_data db releases = Returned series
    ∧ Forall2
        (fun item s =>
           ∃ type points,
             from_string item.1 = Returned type
             ∧ metrics_points db releases type = Returned points
             ∧ s = JDict [("data", JList points); ("label", JStr item.2)])
        update_types_items series.
Proof.
  intros Hknown. unfold Metrics.metrics_data.
  induction update_types_items as [|item items IH]; cbn [for_each].
  { exists []. split; [done | constructor]. }
  destruct (Hknown item) as [type Htype]; [apply elem_of_cons; by left|].
  rewrite Htype, metrics_points_count.
  destruct IH as (series & -> & Hseries).
  { intros item' Hitem'. apply Hknown, elem_of_cons. by right. }
  eexists. split; [reflexivity|]. constructor; [|exact Hseries].
  exists type. eexists. rewrite metrics_points_count. by repeat split.
Qed.

(** X23.  When [from_string] knows every key of [update_types], the
    view answers: the ticks dumped, and one series per item, in the
    order of the items, labelled with the item's label and holding the
    points of the item's type. *)
Theorem metrics_answers (db : list Update) (releases_table : list release_row) :
  (∀ item, item ∈ update_types_items ->
           ∃ type, from_string item.1 = Returned type) ->
  ∃ series,
    metrics db releases_table
    = Returned
        {| data := json_dumps (JList series);
           ticks := json_dumps
                      (JList (metrics_ticks
                                (fedora_releases sql_like releases_table))) |}
    ∧ Forall2
        (fun item s =>
           ∃ type points,
             from_string item.1 = Returned type
             ∧ metrics_points db (fedora_releases sql_like releases_table) type
               = Returned points
             ∧ s = JDict [("data", JList points); ("label", JStr item.2)])
        update_types_items series.
Proof.
  intros Hknown.
  destruct (metrics_data_series db (fedora_releases sql_like releases_table)
              Hknown) as (series & Hdata & Hseries).
  exists series. split; [|exact Hseries].
  unfold Metrics.metrics. cbv zeta. by rewrite Hdata.
Qed.

(** X24.  Ticks and points agree when the query returns the releases
    in ascending version order: tick [i] then names the release whose
    updates point [i] of every series counts. *)
Theorem metrics_aligned_when_ascending (db : list Update)
  (releases : list release_row) (type : UpdateType) (i : nat)
  (release : release_row) :
  StronglySorted ascending_version releases ->
  releases !! i = Some release ->
  metrics_ticks releases !! i = Some (tick i release)
  ∧ ∃ points,
      metrics_points db releases type = Returned points
      ∧ points !! i
        = Some (point i (Z.of_nat (length (stable_updates db
                                             (row_release release) type)))).
Proof.
  intros Hsorted Hi. split.
  - unfold metrics_ticks. rewrite (sorted_by_ascending _ _ Hsorted).
    by rewrite list_lookup_imap, Hi.
  - eexists. split; [apply metrics_points_count|].
    by rewrite list_lookup_imap, Hi.
Qed.
End MetricsProperties.

(** ** The further properties on the fixtures *)

Section MoreExamples.
Import Fixtures ListingFixtures MoreFixtures MetricsFixtures Metrics.

Lemma set_request_other_skips_checker_witness :
  locked u1 = false
  ∧ request_testing ≠ request_stable
  ∧ calls (snd (set_request requirements_unmet request_accepted u1
                  request_testing (state0 ∅)))
    = [Call_set_request u1 request_testing "alice"].
Proof.
  split; [reflexivity|]. split; [discriminate|].
  apply (set_request_other_skips_checker requirements_unmet request_accepted
           u1 request_testing (state0 ∅)); [reflexivity | discriminate].
Defined.

Lemma set_request_model_raises_witness :
  let e := Exn "BodhiException" true false
             "critical path update not yet approved" in
  let e' := Exn "OperationalError" false false "connection lost" in
  locked u1 = false
  ∧ request_testing ≠ request_stable
  ∧ request_refused u1 request_testing "alice" tt = (Raised e, u1, tt)
  ∧ request_crashes u1 request_testing "alice" tt = (Raised e', u1, tt)
  ∧ fst (set_request requirements_met request_refused u1 request_testing
           (state0 ∅)) = Returned (Some u1)
  ∧ fst (set_request requirements_met request_crashes u1 request_testing
           (state0 ∅)) = Raised e'.
Proof.
  intros e e'.
  assert (Hne : request_testing ≠ request_stable) by discriminate.
  split; [reflexivity|]. split; [exact Hne|]. split; [reflexivity|].
  split; [reflexivity|]. split.
  - apply (proj1 (set_request_model_raises requirements_met request_refused
                    u1 u1 request_testing (state0 ∅) e tt
                    eq_refl Hne eq_refl)).
    reflexivity.
  - apply (proj2 (set_request_model_raises requirements_met request_crashes
                    u1 u1 request_testing (state0 ∅) e' tt
                    eq_refl Hne eq_refl)).
    reflexivity.
Defined.

Lemma set_request_checker_raises_witness :
  let e := Exn "OperationalError" false false "connection lost" in
  locked u1 = false
  ∧ requirements_raise u1 tt = (Raised e, u1, tt)
  ∧ fst (set_request requirements_raise request_accepted u1 request_stable
           (state0 ∅)) = Raised e.
Proof.
  intros e. split; [reflexivity|]. split; [reflexivity|].
  apply (set_request_checker_raises requirements_raise request_accepted
           u1 u1 (state0 ∅) e tt eq_refl eq_refl).
Defined.

Lemma new_update_without_token_witness :
  validated (req (state0 ∅)) !! "csrf_token" = None
  ∧ fst (new_update edit_returns new_returns obsoletion_done (state0 ∅))
    = Raised (KeyError "csrf_token").
Proof.
  split; [reflexivity|].
  apply (new_update_without_token edit_returns new_returns obsoletion_done
           (state0 ∅)).
  reflexivity.
Defined.

Lemma new_update_token_not_passed_witness :
  let st := state0 submission_new in
  let d := delete "csrf_token" submission_new in
  Call_new d
  ∈ new_calls st (snd (new_update edit_returns new_returns obsoletion_done st))
  ∧ submission_of (Call_new d) = Some d
  ∧ d !! "csrf_token" = None.
Proof.
  intros st d.
  assert (Hc : Call_new d
               ∈ new_calls st
                   (snd (new_update edit_returns new_returns
                           obsoletion_done st)))
    by (vm_compute; constructor).
  split; [exact Hc|]. split; [reflexivity|].
  apply (new_update_token_not_passed edit_returns new_returns obsoletion_done
           st (Call_new d) d Hc eq_refl).
Defined.

Lemma new_update_edited_truthy_witness :
  let st := state0 submission_edit in
  validated (req st) !! "csrf_token" = Some (PyStr "t0k")
  ∧ truthy (dict_get (validated (req st)) "edited") = true
  ∧ ∃ cs, calls (snd (new_update edit_returns new_returns obsoletion_done st))
          = calls st ++ Call_edit (delete "csrf_token" (validated (req st))) :: cs
          ∧ Forall (fun c => is_Call_edit c = false ∧ submission_of c = None) cs.
Proof.
  intros st.
  assert (Htoken : validated (req st) !! "csrf_token" = Some (PyStr "t0k"))
    by (vm_compute; reflexivity).
  assert (Hedited : truthy (dict_get (validated (req st)) "edited") = true)
    by (vm_compute; reflexivity).
  split; [exact Htoken|]. split; [exact Hedited|].
  apply (new_update_edited_truthy edit_returns new_returns obsoletion_done
           st (PyStr "t0k") Htoken Hedited).
Defined.

Lemma new_update_edited_absent_witness :
  let st := state0 submission_new in
  validated (req st) !! "edited" = None
  ∧ Forall (fun c => is_Call_edit c = false)
      (new_calls st
         (snd (new_update edit_returns new_returns obsoletion_done st))).
Proof.
  intros st.
  assert (Habsent : validated (req st) !! "edited" = None)
    by (vm_compute; reflexivity).
  split; [exact Habsent|].
  apply (new_update_edited_absent edit_returns new_returns obsoletion_done
           st Habsent).
Defined.

Lemma new_update_without_builds_witness :
  let st := state0 submission_no_builds in
  let st' := state0 submission_bad_builds in
  validated (req st) !! "csrf_token" = Some (PyStr "t0k")
  ∧ truthy (dict_get (validated (req st)) "edited") = false
  ∧ validated (req st) !! "builds" = None
  ∧ validated (req st') !! "builds" = Some (PyInt 3)
  ∧ str_join " " (PyInt 3) = Raised (TypeError "can only join an iterable")
  ∧ calls (snd (new_update edit_returns new_returns obsoletion_done st))
    = calls st
  ∧ calls (snd (new_update edit_returns new_returns obsoletion_done st'))
    = calls st'.
Proof.
  intros st st'.
  assert (Htoken : validated (req st) !! "csrf_token" = Some (PyStr "t0k"))
    by (vm_compute; reflexivity).
  assert (Htoken' : validated (req st') !! "csrf_token" = Some (PyStr "t0k"))
    by (vm_compute; reflexivity).
  assert (Hbuilds : validated (req st) !! "builds" = None)
    by (vm_compute; reflexivity).
  assert (Hbuilds' : validated (req st') !! "builds" = Some (PyInt 3))
    by (vm_compute; reflexivity).
  split; [exact Htoken|]. split; [vm_compute; reflexivity|].
  split; [exact Hbuilds|]. split; [exact Hbuilds'|]. split; [reflexivity|].
  split.
  - destruct (new_update_without_builds edit_returns new_returns
                obsoletion_done st (PyStr "t0k") Htoken)
      as (e & _ & _ & Hcalls); [vm_compute; reflexivity | by left |].
    exact Hcalls.
  - destruct (new_update_without_builds edit_returns new_returns
                obsoletion_done st' (PyStr "t0k") Htoken')
      as (e & _ & _ & Hcalls); [vm_compute; reflexivity | |].
    { right. exists (PyInt 3), (TypeError "can only join an iterable").
      by split. }
    exact Hcalls.
Defined.

Lemma new_update_none_has_error_witness :
  let r := new_update edit_returns new_raises_other obsoletion_done
             (state0 submission_new) in
  r = (Returned None, snd r)
  ∧ ∃ es e, errors (req (snd r)) = es ++ [e]
            ∧ location e = "body" ∧ name e = "builds"
            ∧ succeeded r = false.
Proof.
  intros r.
  assert (Hrun : r = (Returned None, snd r)) by (vm_compute; reflexivity).
  split; [exact Hrun|].
  exact (new_update_none_has_error edit_returns new_raises_other
           obsoletion_done (state0 submission_new) (snd r) Hrun).
Defined.

Lemma query_updates_zero_rows_per_page_witness :
  Data.rows_per_page (everything 1 0) = 0
  ∧ query_updates true like_match db4 (everything 1 0)
    = Raised (ZeroDivisionError "float division by zero").
Proof.
  split; [reflexivity|].
  apply (query_updates_zero_rows_per_page true like_match db4 (everything 1 0)).
  reflexivity.
Defined.

Lemma query_updates_page_size_witness :
  let l := ListingFixtures.answer (run db4 (everything 1 3)) in
  query_updates true like_match db4 (everything 1 3) = Returned l
  ∧ Z.of_nat (length (Listing.updates l)) <= 3
  ∧ Z.of_nat (length (Listing.updates l)) <= Listing.total l.
Proof.
  intros l.
  assert (Hl : query_updates true like_match db4 (everything 1 3) = Returned l)
    by (vm_compute; reflexivity).
  split; [exact Hl|].
  apply (query_updates_page_size true like_match db4 (everything 1 3) l Hl).
Defined.

Lemma query_updates_no_duplicate_witness :
  let l := ListingFixtures.answer (run db4 bugs_11_12) in
  query_updates true like_match db4 bugs_11_12 = Returned l
  ∧ NoDup (id <$> Listing.updates l).
Proof.
  intros l.
  assert (Hl : query_updates true like_match db4 bugs_11_12 = Returned l)
    by (vm_compute; reflexivity).
  split; [exact Hl|].
  apply (query_updates_no_duplicate true like_match db4 bugs_11_12 l Hl).
Defined.

Lemma query_updates_without_joins_witness :
  Data.bugs stable_security = None
  ∧ Data.cves stable_security = None
  ∧ Data.packages stable_security = None
  ∧ Data.builds stable_security = None
  ∧ (∀ u, u ∈ (row_update <$> listed_rows true like_match db4 stable_security)
          <-> u ∈ db4 ∧ matches true like_match stable_security (update_row u))
  ∧ query_updates true like_match db4 stable_security
    = Returned (ListingFixtures.answer (run db4 stable_security))
  ∧ Listing.total (ListingFixtures.answer (run db4 stable_security))
    = Z.of_nat (length (List.filter
                          (fun u => selects true like_match
                                      (filtered_query stable_security)
                                      (update_row u)) db4)).
Proof.
  split; [reflexivity|]. split; [reflexivity|]. split; [reflexivity|].
  split; [reflexivity|].
  destruct (query_updates_without_joins true like_match db4 stable_security)
    as (_ & Hlisted & Htotal); [reflexivity..|].
  assert (Hl : query_updates true like_match db4 stable_security
               = Returned (ListingFixtures.answer (run db4 stable_security)))
    by (vm_compute; reflexivity).
  split; [exact Hlisted|]. split; [exact Hl | exact (Htotal _ Hl)].
Defined.

Lemma metrics_answers_witness :
  (∀ item, item ∈ update_types ->
           ∃ type, MetricsFixtures.from_string item.1 = Returned type)
  ∧ ∃ series,
      metrics dumps MetricsFixtures.from_string update_types true like_match
        db4 releases_table
      = Returned
          {| data := dumps (JList series);
             ticks := dumps (JList (metrics_ticks
                                      (fedora_releases like_match
                                         releases_table))) |}.
Proof.
  assert (Hknown : ∀ item, item ∈ update_types ->
             ∃ type, MetricsFixtures.from_string item.1 = Returned type).
  { intros item Hitem. unfold update_types in Hitem.
    repeat (apply elem_of_cons in Hitem as [->|Hitem]);
      [by eexists .. | by apply elem_of_nil in Hitem]. }
  split; [exact Hknown|].
  destruct (metrics_answers dumps MetricsFixtures.from_string update_types
              true like_match db4 releases_table Hknown)
    as (series & Hrun & _).
  by exists series.
Defined.

Lemma metrics_aligned_when_ascending_witness :
  let F30_row := {| row_release := F30; version_int := 30 |} in
  StronglySorted ascending_version releases_ascending
  ∧ releases_ascending !! 1%nat = Some F30_row
  ∧ metrics_ticks releases_ascending !! 1%nat = Some (tick 1 F30_row).
Proof.
  intros F30_row.
  assert (Hsorted : StronglySorted ascending_version releases_ascending)
    by (apply (bool_decide_unpack _); vm_compute; reflexivity).
  split; [exact Hsorted|]. split; [reflexivity|].
  apply (metrics_aligned_when_ascending true like_match db4
           releases_ascending type_security 1 F30_row Hsorted eq_refl).
Defined.

(** The releases table newest first: the ticks are sorted, the points
    are not, and index 0 names F30 while it counts the updates of
    F31. *)
Example metrics_misaligned_when_descending :
  let releases := fedora_releases like_match releases_table in
  release_name <$> (row_release <$> releases) = ["F31"; "F30"]
  ∧ metrics_ticks releases
    = [JList [JInt 0; JStr "F30"]; JList [JInt 1; JStr "F31"]]
  ∧ metrics_points true like_match db4 releases type_bugfix
    = Returned [JList [JInt 0; JInt 1]; JList [JInt 1; JInt 0]]
  ∧ length (stable_updates db4 F31 type_bugfix) = 1%nat
  ∧ length (stable_updates db4 F30 type_bugfix) = 0%nat.
Proof. vm_compute. repeat split. Qed.
End MoreExamples.
